(** * AWS services API: an in-memory registry of (name, category) records

    Shallow embedding of [FastAPI/api.py] and [FastAPI/errors.py].

    - A Python [str] is the list of its code points. [str.lower] and
      [str.isdigit] are the interpreter's own: the lowercase mapping, the
      one character that lowers to two, the rule for a capital sigma at
      the end of a word, and the digit characters of every script, from
      the character tables of CPython 3.11 (Unicode 14.0.0).
    - The dicts [{'name': .., 'category': ..}] are records.
    - The module-level list [aws_services] and the module logger are the
      two mutable objects of the process; they are the fields of [World].
    - A handler is a computation in a state-and-exception monad [M]:
      [raise] keeps whatever the world is at the point of the raise. *)

From Stdlib Require Import Ascii String.
From stdpp Require Import base decidable option list strings gmap.

(** ** Character tables *)

Module UnicodeData.

Local Open Scope N_scope.

(** Code points of which [str.isdigit] holds, as inclusive ranges
    (Numeric_Type Digit or Decimal, Unicode 14.0.0). *)
Definition digit_ranges : list (N * N) :=
  [(48, 57); (178, 179); (185, 185); (1632, 1641); (1776, 1785);
   (1984, 1993); (2406, 2415); (2534, 2543); (2662, 2671); (2790, 2799);
   (2918, 2927); (3046, 3055); (3174, 3183); (3302, 3311); (3430, 3439);
   (3558, 3567); (3664, 3673); (3792, 3801); (3872, 3881); (4160, 4169);
   (4240, 4249); (4969, 4977); (6112, 6121); (6160, 6169); (6470, 6479);
   (6608, 6618); (6784, 6793); (6800, 6809); (6992, 7001); (7088, 7097);
   (7232, 7241); (7248, 7257); (8304, 8304); (8308, 8313); (8320, 8329);
   (9312, 9320); (9332, 9340); (9352, 9360); (9450, 9450); (9461, 9469);
   (9471, 9471); (10102, 10110); (10112, 10120); (10122, 10130);
   (42528, 42537); (43216, 43225); (43264, 43273); (43472, 43481);
   (43504, 43513); (43600, 43609); (44016, 44025); (65296, 65305);
   (66720, 66729); (68160, 68163); (68912, 68921); (69216, 69224);
   (69714, 69722); (69734, 69743); (69872, 69881); (69942, 69951);
   (70096, 70105); (70384, 70393); (70736, 70745); (70864, 70873);
   (71248, 71257); (71360, 71369); (71472, 71481); (71904, 71913);
   (72016, 72025); (72784, 72793); (73040, 73049); (73120, 73129);
   (92768, 92777); (92864, 92873); (93008, 93017); (120782, 120831);
   (123200, 123209); (123632, 123641); (125264, 125273); (127232, 127242);
   (130032, 130041) ].

(** Code points with the property Cased, as inclusive ranges. *)
Definition cased_ranges : list (N * N) :=
  [(65, 90); (97, 122); (170, 170); (181, 181); (186, 186); (192, 214);
   (216, 246); (248, 442); (444, 447); (452, 659); (661, 696); (704, 705);
   (736, 740); (837, 837); (880, 883); (886, 887); (890, 893); (895, 895);
   (902, 902); (904, 906); (908, 908); (910, 929); (931, 1013); (1015, 1153);
   (1162, 1327); (1329, 1366); (1376, 1416); (4256, 4293); (4295, 4295);
   (4301, 4301); (4304, 4346); (4349, 4351); (5024, 5109); (5112, 5117);
   (7296, 7304); (7312, 7354); (7357, 7359); (7424, 7615); (7680, 7957);
   (7960, 7965); (7968, 8005); (8008, 8013); (8016, 8023); (8025, 8025);
   (8027, 8027); (8029, 8029); (8031, 8061); (8064, 8116); (8118, 8124);
   (8126, 8126); (8130, 8132); (8134, 8140); (8144, 8147); (8150, 8155);
   (8160, 8172); (8178, 8180); (8182, 8188); (8305, 8305); (8319, 8319);
   (8336, 8348); (8450, 8450); (8455, 8455); (8458, 8467); (8469, 8469);
   (8473, 8477); (8484, 8484); (8486, 8486); (8488, 8488); (8490, 8493);
   (8495, 8500); (8505, 8505); (8508, 8511); (8517, 8521); (8526, 8526);
   (8544, 8575); (8579, 8580); (9398, 9449); (11264, 11492); (11499, 11502);
   (11506, 11507); (11520, 11557); (11559, 11559); (11565, 11565);
   (42560, 42605); (42624, 42653); (42786, 42887); (42891, 42894);
   (42896, 42954); (42960, 42961); (42963, 42963); (42965, 42969);
   (42997, 42998); (43000, 43002); (43824, 43866); (43868, 43880);
   (43888, 43967); (64256, 64262); (64275, 64279); (65313, 65338);
   (65345, 65370); (66560, 66639); (66736, 66771); (66776, 66811);
   (66928, 66938); (66940, 66954); (66956, 66962); (66964, 66965);
   (66967, 66977); (66979, 66993); (66995, 67001); (67003, 67004);
   (67456, 67456); (67459, 67461); (67463, 67504); (67506, 67514);
   (68736, 68786); (68800, 68850); (71840, 71903); (93760, 93823);
   (119808, 119892); (119894, 119964); (119966, 119967); (119970, 119970);
   (119973, 119974); (119977, 119980); (119982, 119993); (119995, 119995);
   (119997, 120003); (120005, 120069); (120071, 120074); (120077, 120084);
   (120086, 120092); (120094, 120121); (120123, 120126); (120128, 120132);
   (120134, 120134); (120138, 120144); (120146, 120485); (120488, 120512);
   (120514, 120538); (120540, 120570); (120572, 120596); (120598, 120628);
   (120630, 120654); (120656, 120686); (120688, 120712); (120714, 120744);
   (120746, 120770); (120772, 120779); (122624, 122633); (122635, 122654);
   (125184, 125251); (127280, 127305); (127312, 127337); (127344, 127369) ].

(** Code points with the property Case_Ignorable, as inclusive ranges. *)
Definition case_ignorable_ranges : list (N * N) :=
  [(39, 39); (46, 46); (58, 58); (94, 94); (96, 96); (168, 168); (173, 173);
   (175, 175); (180, 180); (183, 184); (688, 879); (884, 885); (890, 890);
   (900, 901); (903, 903); (1155, 1161); (1369, 1369); (1375, 1375);
   (1425, 1469); (1471, 1471); (1473, 1474); (1476, 1477); (1479, 1479);
   (1524, 1524); (1536, 1541); (1552, 1562); (1564, 1564); (1600, 1600);
   (1611, 1631); (1648, 1648); (1750, 1757); (1759, 1768); (1770, 1773);
   (1807, 1807); (1809, 1809); (1840, 1866); (1958, 1968); (2027, 2037);
   (2042, 2042); (2045, 2045); (2070, 2093); (2137, 2139); (2184, 2184);
   (2192, 2193); (2200, 2207); (2249, 2306); (2362, 2362); (2364, 2364);
   (2369, 2376); (2381, 2381); (2385, 2391); (2402, 2403); (2417, 2417);
   (2433, 2433); (2492, 2492); (2497, 2500); (2509, 2509); (2530, 2531);
   (2558, 2558); (2561, 2562); (2620, 2620); (2625, 2626); (2631, 2632);
   (2635, 2637); (2641, 2641); (2672, 2673); (2677, 2677); (2689, 2690);
   (2748, 2748); (2753, 2757); (2759, 2760); (2765, 2765); (2786, 2787);
   (2810, 2815); (2817, 2817); (2876, 2876); (2879, 2879); (2881, 2884);
   (2893, 2893); (2901, 2902); (2914, 2915); (2946, 2946); (3008, 3008);
   (3021, 3021); (3072, 3072); (3076, 3076); (3132, 3132); (3134, 3136);
   (3142, 3144); (3146, 3149); (3157, 3158); (3170, 3171); (3201, 3201);
   (3260, 3260); (3263, 3263); (3270, 3270); (3276, 3277); (3298, 3299);
   (3328, 3329); (3387, 3388); (3393, 3396); (3405, 3405); (3426, 3427);
   (3457, 3457); (3530, 3530); (3538, 3540); (3542, 3542); (3633, 3633);
   (3636, 3642); (3654, 3662); (3761, 3761); (3764, 3772); (3782, 3782);
   (3784, 3789); (3864, 3865); (3893, 3893); (3895, 3895); (3897, 3897);
   (3953, 3966); (3968, 3972); (3974, 3975); (3981, 3991); (3993, 4028);
   (4038, 4038); (4141, 4144); (4146, 4151); (4153, 4154); (4157, 4158);
   (4184, 4185); (4190, 4192); (4209, 4212); (4226, 4226); (4229, 4230);
   (4237, 4237); (4253, 4253); (4348, 4348); (4957, 4959); (5906, 5908);
   (5938, 5939); (5970, 5971); (6002, 6003); (6068, 6069); (6071, 6077);
   (6086, 6086); (6089, 6099); (6103, 6103); (6109, 6109); (6155, 6159);
   (6211, 6211); (6277, 6278); (6313, 6313); (6432, 6434); (6439, 6440);
   (6450, 6450); (6457, 6459); (6679, 6680); (6683, 6683); (6742, 6742);
   (6744, 6750); (6752, 6752); (6754, 6754); (6757, 6764); (6771, 6780);
   (6783, 6783); (6823, 6823); (6832, 6862); (6912, 6915); (6964, 6964);
   (6966, 6970); (6972, 6972); (6978, 6978); (7019, 7027); (7040, 7041);
   (7074, 7077); (7080, 7081); (7083, 7085); (7142, 7142); (7144, 7145);
   (7149, 7149); (7151, 7153); (7212, 7219); (7222, 7223); (7288, 7293);
   (7376, 7378); (7380, 7392); (7394, 7400); (7405, 7405); (7412, 7412);
   (7416, 7417); (7468, 7530); (7544, 7544); (7579, 7679); (8125, 8125);
   (8127, 8129); (8141, 8143); (8157, 8159); (8173, 8175); (8189, 8190);
   (8203, 8207); (8216, 8217); (8228, 8228); (8231, 8231); (8234, 8238);
   (8288, 8292); (8294, 8303); (8305, 8305); (8319, 8319); (8336, 8348);
   (8400, 8432); (11388, 11389); (11503, 11505); (11631, 11631);
   (11647, 11647); (11744, 11775); (11823, 11823); (12293, 12293);
   (12330, 12333); (12337, 12341); (12347, 12347); (12441, 12446);
   (12540, 12542); (40981, 40981); (42232, 42237); (42508, 42508);
   (42607, 42610); (42612, 42621); (42623, 42623); (42652, 42655);
   (42736, 42737); (42752, 42785); (42864, 42864); (42888, 42890);
   (42994, 42996); (43000, 43001); (43010, 43010); (43014, 43014);
   (43019, 43019); (43045, 43046); (43052, 43052); (43204, 43205);
   (43232, 43249); (43263, 43263); (43302, 43309); (43335, 43345);
   (43392, 43394); (43443, 43443); (43446, 43449); (43452, 43453);
   (43471, 43471); (43493, 43494); (43561, 43566); (43569, 43570);
   (43573, 43574); (43587, 43587); (43596, 43596); (43632, 43632);
   (43644, 43644); (43696, 43696); (43698, 43700); (43703, 43704);
   (43710, 43711); (43713, 43713); (43741, 43741); (43756, 43757);
   (43763, 43764); (43766, 43766); (43867, 43871); (43881, 43883);
   (44005, 44005); (44008, 44008); (44013, 44013); (64286, 64286);
   (64434, 64450); (65024, 65039); (65043, 65043); (65056, 65071);
   (65106, 65106); (65109, 65109); (65279, 65279); (65287, 65287);
   (65294, 65294); (65306, 65306); (65342, 65342); (65344, 65344);
   (65392, 65392); (65438, 65439); (65507, 65507); (65529, 65531);
   (66045, 66045); (66272, 66272); (66422, 66426); (67456, 67461);
   (67463, 67504); (67506, 67514); (68097, 68099); (68101, 68102);
   (68108, 68111); (68152, 68154); (68159, 68159); (68325, 68326);
   (68900, 68903); (69291, 69292); (69446, 69456); (69506, 69509);
   (69633, 69633); (69688, 69702); (69744, 69744); (69747, 69748);
   (69759, 69761); (69811, 69814); (69817, 69818); (69821, 69821);
   (69826, 69826); (69837, 69837); (69888, 69890); (69927, 69931);
   (69933, 69940); (70003, 70003); (70016, 70017); (70070, 70078);
   (70089, 70092); (70095, 70095); (70191, 70193); (70196, 70196);
   (70198, 70199); (70206, 70206); (70367, 70367); (70371, 70378);
   (70400, 70401); (70459, 70460); (70464, 70464); (70502, 70508);
   (70512, 70516); (70712, 70719); (70722, 70724); (70726, 70726);
   (70750, 70750); (70835, 70840); (70842, 70842); (70847, 70848);
   (70850, 70851); (71090, 71093); (71100, 71101); (71103, 71104);
   (71132, 71133); (71219, 71226); (71229, 71229); (71231, 71232);
   (71339, 71339); (71341, 71341); (71344, 71349); (71351, 71351);
   (71453, 71455); (71458, 71461); (71463, 71467); (71727, 71735);
   (71737, 71738); (71995, 71996); (71998, 71998); (72003, 72003);
   (72148, 72151); (72154, 72155); (72160, 72160); (72193, 72202);
   (72243, 72248); (72251, 72254); (72263, 72263); (72273, 72278);
   (72281, 72283); (72330, 72342); (72344, 72345); (72752, 72758);
   (72760, 72765); (72767, 72767); (72850, 72871); (72874, 72880);
   (72882, 72883); (72885, 72886); (73009, 73014); (73018, 73018);
   (73020, 73021); (73023, 73029); (73031, 73031); (73104, 73105);
   (73109, 73109); (73111, 73111); (73459, 73460); (78896, 78904);
   (92912, 92916); (92976, 92982); (92992, 92995); (94031, 94031);
   (94095, 94111); (94176, 94177); (94179, 94180); (110576, 110579);
   (110581, 110587); (110589, 110590); (113821, 113822); (113824, 113827);
   (118528, 118573); (118576, 118598); (119143, 119145); (119155, 119170);
   (119173, 119179); (119210, 119213); (119362, 119364); (121344, 121398);
   (121403, 121452); (121461, 121461); (121476, 121476); (121499, 121503);
   (121505, 121519); (122880, 122886); (122888, 122904); (122907, 122913);
   (122915, 122916); (122918, 122922); (123184, 123197); (123566, 123566);
   (123628, 123631); (125136, 125142); (125252, 125259); (127995, 127999);
   (917505, 917505); (917536, 917631); (917760, 917999) ].

(** The lowercase mapping: every code point whose lowercase is one other
    code point, with that code point. *)
Definition lower_pairs : list (N * N) :=
  [(65, 97); (66, 98); (67, 99); (68, 100); (69, 101); (70, 102); (71, 103);
   (72, 104); (73, 105); (74, 106); (75, 107); (76, 108); (77, 109);
   (78, 110); (79, 111); (80, 112); (81, 113); (82, 114); (83, 115);
   (84, 116); (85, 117); (86, 118); (87, 119); (88, 120); (89, 121);
   (90, 122); (192, 224); (193, 225); (194, 226); (195, 227); (196, 228);
   (197, 229); (198, 230); (199, 231); (200, 232); (201, 233); (202, 234);
   (203, 235); (204, 236); (205, 237); (206, 238); (207, 239); (208, 240);
   (209, 241); (210, 242); (211, 243); (212, 244); (213, 245); (214, 246);
   (216, 248); (217, 249); (218, 250); (219, 251); (220, 252); (221, 253);
   (222, 254); (256, 257); (258, 259); (260, 261); (262, 263); (264, 265);
   (266, 267); (268, 269); (270, 271); (272, 273); (274, 275); (276, 277);
   (278, 279); (280, 281); (282, 283); (284, 285); (286, 287); (288, 289);
   (290, 291); (292, 293); (294, 295); (296, 297); (298, 299); (300, 301);
   (302, 303); (306, 307); (308, 309); (310, 311); (313, 314); (315, 316);
   (317, 318); (319, 320); (321, 322); (323, 324); (325, 326); (327, 328);
   (330, 331); (332, 333); (334, 335); (336, 337); (338, 339); (340, 341);
   (342, 343); (344, 345); (346, 347); (348, 349); (350, 351); (352, 353);
   (354, 355); (356, 357); (358, 359); (360, 361); (362, 363); (364, 365);
   (366, 367); (368, 369); (370, 371); (372, 373); (374, 375); (376, 255);
   (377, 378); (379, 380); (381, 382); (385, 595); (386, 387); (388, 389);
   (390, 596); (391, 392); (393, 598); (394, 599); (395, 396); (398, 477);
   (399, 601); (400, 603); (401, 402); (403, 608); (404, 611); (406, 617);
   (407, 616); (408, 409); (412, 623); (413, 626); (415, 629); (416, 417);
   (418, 419); (420, 421); (422, 640); (423, 424); (425, 643); (428, 429);
   (430, 648); (431, 432); (433, 650); (434, 651); (435, 436); (437, 438);
   (439, 658); (440, 441); (444, 445); (452, 454); (453, 454); (455, 457);
   (456, 457); (458, 460); (459, 460); (461, 462); (463, 464); (465, 466);
   (467, 468); (469, 470); (471, 472); (473, 474); (475, 476); (478, 479);
   (480, 481); (482, 483); (484, 485); (486, 487); (488, 489); (490, 491);
   (492, 493); (494, 495); (497, 499); (498, 499); (500, 501); (502, 405);
   (503, 447); (504, 505); (506, 507); (508, 509); (510, 511); (512, 513);
   (514, 515); (516, 517); (518, 519); (520, 521); (522, 523); (524, 525);
   (526, 527); (528, 529); (530, 531); (532, 533); (534, 535); (536, 537);
   (538, 539); (540, 541); (542, 543); (544, 414); (546, 547); (548, 549);
   (550, 551); (552, 553); (554, 555); (556, 557); (558, 559); (560, 561);
   (562, 563); (570, 11365); (571, 572); (573, 410); (574, 11366);
   (577, 578); (579, 384); (580, 649); (581, 652); (582, 583); (584, 585);
   (586, 587); (588, 589); (590, 591); (880, 881); (882, 883); (886, 887);
   (895, 1011); (902, 940); (904, 941); (905, 942); (906, 943); (908, 972);
   (910, 973); (911, 974); (913, 945); (914, 946); (915, 947); (916, 948);
   (917, 949); (918, 950); (919, 951); (920, 952); (921, 953); (922, 954);
   (923, 955); (924, 956); (925, 957); (926, 958); (927, 959); (928, 960);
   (929, 961); (931, 963); (932, 964); (933, 965); (934, 966); (935, 967);
   (936, 968); (937, 969); (938, 970); (939, 971); (975, 983); (984, 985);
   (986, 987); (988, 989); (990, 991); (992, 993); (994, 995); (996, 997);
   (998, 999); (1000, 1001); (1002, 1003); (1004, 1005); (1006, 1007);
   (1012, 952); (1015, 1016); (1017, 1010); (1018, 1019); (1021, 891);
   (1022, 892); (1023, 893); (1024, 1104); (1025, 1105); (1026, 1106);
   (1027, 1107); (1028, 1108); (1029, 1109); (1030, 1110); (1031, 1111);
   (1032, 1112); (1033, 1113); (1034, 1114); (1035, 1115); (1036, 1116);
   (1037, 1117); (1038, 1118); (1039, 1119); (1040, 1072); (1041, 1073);
   (1042, 1074); (1043, 1075); (1044, 1076); (1045, 1077); (1046, 1078);
   (1047, 1079); (1048, 1080); (1049, 1081); (1050, 1082); (1051, 1083);
   (1052, 1084); (1053, 1085); (1054, 1086); (1055, 1087); (1056, 1088);
   (1057, 1089); (1058, 1090); (1059, 1091); (1060, 1092); (1061, 1093);
   (1062, 1094); (1063, 1095); (1064, 1096); (1065, 1097); (1066, 1098);
   (1067, 1099); (1068, 1100); (1069, 1101); (1070, 1102); (1071, 1103);
   (1120, 1121); (1122, 1123); (1124, 1125); (1126, 1127); (1128, 1129);
   (1130, 1131); (1132, 1133); (1134, 1135); (1136, 1137); (1138, 1139);
   (1140, 1141); (1142, 1143); (1144, 1145); (1146, 1147); (1148, 1149);
   (1150, 1151); (1152, 1153); (1162, 1163); (1164, 1165); (1166, 1167);
   (1168, 1169); (1170, 1171); (1172, 1173); (1174, 1175); (1176, 1177);
   (1178, 1179); (1180, 1181); (1182, 1183); (1184, 1185); (1186, 1187);
   (1188, 1189); (1190, 1191); (1192, 1193); (1194, 1195); (1196, 1197);
   (1198, 1199); (1200, 1201); (1202, 1203); (1204, 1205); (1206, 1207);
   (1208, 1209); (1210, 1211); (1212, 1213); (1214, 1215); (1216, 1231);
   (1217, 1218); (1219, 1220); (1221, 1222); (1223, 1224); (1225, 1226);
   (1227, 1228); (1229, 1230); (1232, 1233); (1234, 1235); (1236, 1237);
   (1238, 1239); (1240, 1241); (1242, 1243); (1244, 1245); (1246, 1247);
   (1248, 1249); (1250, 1251); (1252, 1253); (1254, 1255); (1256, 1257);
   (1258, 1259); (1260, 1261); (1262, 1263); (1264, 1265); (1266, 1267);
   (1268, 1269); (1270, 1271); (1272, 1273); (1274, 1275); (1276, 1277);
   (1278, 1279); (1280, 1281); (1282, 1283); (1284, 1285); (1286, 1287);
   (1288, 1289); (1290, 1291); (1292, 1293); (1294, 1295); (1296, 1297);
   (1298, 1299); (1300, 1301); (1302, 1303); (1304, 1305); (1306, 1307);
   (1308, 1309); (1310, 1311); (1312, 1313); (1314, 1315); (1316, 1317);
   (1318, 1319); (1320, 1321); (1322, 1323); (1324, 1325); (1326, 1327);
   (1329, 1377); (1330, 1378); (1331, 1379); (1332, 1380); (1333, 1381);
   (1334, 1382); (1335, 1383); (1336, 1384); (1337, 1385); (1338, 1386);
   (1339, 1387); (1340, 1388); (1341, 1389); (1342, 1390); (1343, 1391);
   (1344, 1392); (1345, 1393); (1346, 1394); (1347, 1395); (1348, 1396);
   (1349, 1397); (1350, 1398); (1351, 1399); (1352, 1400); (1353, 1401);
   (1354, 1402); (1355, 1403); (1356, 1404); (1357, 1405); (1358, 1406);
   (1359, 1407); (1360, 1408); (1361, 1409); (1362, 1410); (1363, 1411);
   (1364, 1412); (1365, 1413); (1366, 1414); (4256, 11520); (4257, 11521);
   (4258, 11522); (4259, 11523); (4260, 11524); (4261, 11525); (4262, 11526);
   (4263, 11527); (4264, 11528); (4265, 11529); (4266, 11530); (4267, 11531);
   (4268, 11532); (4269, 11533); (4270, 11534); (4271, 11535); (4272, 11536);
   (4273, 11537); (4274, 11538); (4275, 11539); (4276, 11540); (4277, 11541);
   (4278, 11542); (4279, 11543); (4280, 11544); (4281, 11545); (4282, 11546);
   (4283, 11547); (4284, 11548); (4285, 11549); (4286, 11550); (4287, 11551);
   (4288, 11552); (4289, 11553); (4290, 11554); (4291, 11555); (4292, 11556);
   (4293, 11557); (4295, 11559); (4301, 11565); (5024, 43888); (5025, 43889);
   (5026, 43890); (5027, 43891); (5028, 43892); (5029, 43893); (5030, 43894);
   (5031, 43895); (5032, 43896); (5033, 43897); (5034, 43898); (5035, 43899);
   (5036, 43900); (5037, 43901); (5038, 43902); (5039, 43903); (5040, 43904);
   (5041, 43905); (5042, 43906); (5043, 43907); (5044, 43908); (5045, 43909);
   (5046, 43910); (5047, 43911); (5048, 43912); (5049, 43913); (5050, 43914);
   (5051, 43915); (5052, 43916); (5053, 43917); (5054, 43918); (5055, 43919);
   (5056, 43920); (5057, 43921); (5058, 43922); (5059, 43923); (5060, 43924);
   (5061, 43925); (5062, 43926); (5063, 43927); (5064, 43928); (5065, 43929);
   (5066, 43930); (5067, 43931); (5068, 43932); (5069, 43933); (5070, 43934);
   (5071, 43935); (5072, 43936); (5073, 43937); (5074, 43938); (5075, 43939);
   (5076, 43940); (5077, 43941); (5078, 43942); (5079, 43943); (5080, 43944);
   (5081, 43945); (5082, 43946); (5083, 43947); (5084, 43948); (5085, 43949);
   (5086, 43950); (5087, 43951); (5088, 43952); (5089, 43953); (5090, 43954);
   (5091, 43955); (5092, 43956); (5093, 43957); (5094, 43958); (5095, 43959);
   (5096, 43960); (5097, 43961); (5098, 43962); (5099, 43963); (5100, 43964);
   (5101, 43965); (5102, 43966); (5103, 43967); (5104, 5112); (5105, 5113);
   (5106, 5114); (5107, 5115); (5108, 5116); (5109, 5117); (7312, 4304);
   (7313, 4305); (7314, 4306); (7315, 4307); (7316, 4308); (7317, 4309);
   (7318, 4310); (7319, 4311); (7320, 4312); (7321, 4313); (7322, 4314);
   (7323, 4315); (7324, 4316); (7325, 4317); (7326, 4318); (7327, 4319);
   (7328, 4320); (7329, 4321); (7330, 4322); (7331, 4323); (7332, 4324);
   (7333, 4325); (7334, 4326); (7335, 4327); (7336, 4328); (7337, 4329);
   (7338, 4330); (7339, 4331); (7340, 4332); (7341, 4333); (7342, 4334);
   (7343, 4335); (7344, 4336); (7345, 4337); (7346, 4338); (7347, 4339);
   (7348, 4340); (7349, 4341); (7350, 4342); (7351, 4343); (7352, 4344);
   (7353, 4345); (7354, 4346); (7357, 4349); (7358, 4350); (7359, 4351);
   (7680, 7681); (7682, 7683); (7684, 7685); (7686, 7687); (7688, 7689);
   (7690, 7691); (7692, 7693); (7694, 7695); (7696, 7697); (7698, 7699);
   (7700, 7701); (7702, 7703); (7704, 7705); (7706, 7707); (7708, 7709);
   (7710, 7711); (7712, 7713); (7714, 7715); (7716, 7717); (7718, 7719);
   (7720, 7721); (7722, 7723); (7724, 7725); (7726, 7727); (7728, 7729);
   (7730, 7731); (7732, 7733); (7734, 7735); (7736, 7737); (7738, 7739);
   (7740, 7741); (7742, 7743); (7744, 7745); (7746, 7747); (7748, 7749);
   (7750, 7751); (7752, 7753); (7754, 7755); (7756, 7757); (7758, 7759);
   (7760, 7761); (7762, 7763); (7764, 7765); (7766, 7767); (7768, 7769);
   (7770, 7771); (7772, 7773); (7774, 7775); (7776, 7777); (7778, 7779);
   (7780, 7781); (7782, 7783); (7784, 7785); (7786, 7787); (7788, 7789);
   (7790, 7791); (7792, 7793); (7794, 7795); (7796, 7797); (7798, 7799);
   (7800, 7801); (7802, 7803); (7804, 7805); (7806, 7807); (7808, 7809);
   (7810, 7811); (7812, 7813); (7814, 7815); (7816, 7817); (7818, 7819);
   (7820, 7821); (7822, 7823); (7824, 7825); (7826, 7827); (7828, 7829);
   (7838, 223); (7840, 7841); (7842, 7843); (7844, 7845); (7846, 7847);
   (7848, 7849); (7850, 7851); (7852, 7853); (7854, 7855); (7856, 7857);
   (7858, 7859); (7860, 7861); (7862, 7863); (7864, 7865); (7866, 7867);
   (7868, 7869); (7870, 7871); (7872, 7873); (7874, 7875); (7876, 7877);
   (7878, 7879); (7880, 7881); (7882, 7883); (7884, 7885); (7886, 7887);
   (7888, 7889); (7890, 7891); (7892, 7893); (7894, 7895); (7896, 7897);
   (7898, 7899); (7900, 7901); (7902, 7903); (7904, 7905); (7906, 7907);
   (7908, 7909); (7910, 7911); (7912, 7913); (7914, 7915); (7916, 7917);
   (7918, 7919); (7920, 7921); (7922, 7923); (7924, 7925); (7926, 7927);
   (7928, 7929); (7930, 7931); (7932, 7933); (7934, 7935); (7944, 7936);
   (7945, 7937); (7946, 7938); (7947, 7939); (7948, 7940); (7949, 7941);
   (7950, 7942); (7951, 7943); (7960, 7952); (7961, 7953); (7962, 7954);
   (7963, 7955); (7964, 7956); (7965, 7957); (7976, 7968); (7977, 7969);
   (7978, 7970); (7979, 7971); (7980, 7972); (7981, 7973); (7982, 7974);
   (7983, 7975); (7992, 7984); (7993, 7985); (7994, 7986); (7995, 7987);
   (7996, 7988); (7997, 7989); (7998, 7990); (7999, 7991); (8008, 8000);
   (8009, 8001); (8010, 8002); (8011, 8003); (8012, 8004); (8013, 8005);
   (8025, 8017); (8027, 8019); (8029, 8021); (8031, 8023); (8040, 8032);
   (8041, 8033); (8042, 8034); (8043, 8035); (8044, 8036); (8045, 8037);
   (8046, 8038); (8047, 8039); (8072, 8064); (8073, 8065); (8074, 8066);
   (8075, 8067); (8076, 8068); (8077, 8069); (8078, 8070); (8079, 8071);
   (8088, 8080); (8089, 8081); (8090, 8082); (8091, 8083); (8092, 8084);
   (8093, 8085); (8094, 8086); (8095, 8087); (8104, 8096); (8105, 8097);
   (8106, 8098); (8107, 8099); (8108, 8100); (8109, 8101); (8110, 8102);
   (8111, 8103); (8120, 8112); (8121, 8113); (8122, 8048); (8123, 8049);
   (8124, 8115); (8136, 8050); (8137, 8051); (8138, 8052); (8139, 8053);
   (8140, 8131); (8152, 8144); (8153, 8145); (8154, 8054); (8155, 8055);
   (8168, 8160); (8169, 8161); (8170, 8058); (8171, 8059); (8172, 8165);
   (8184, 8056); (8185, 8057); (8186, 8060); (8187, 8061); (8188, 8179);
   (8486, 969); (8490, 107); (8491, 229); (8498, 8526); (8544, 8560);
   (8545, 8561); (8546, 8562); (8547, 8563); (8548, 8564); (8549, 8565);
   (8550, 8566); (8551, 8567); (8552, 8568); (8553, 8569); (8554, 8570);
   (8555, 8571); (8556, 8572); (8557, 8573); (8558, 8574); (8559, 8575);
   (8579, 8580); (9398, 9424); (9399, 9425); (9400, 9426); (9401, 9427);
   (9402, 9428); (9403, 9429); (9404, 9430); (9405, 9431); (9406, 9432);
   (9407, 9433); (9408, 9434); (9409, 9435); (9410, 9436); (9411, 9437);
   (9412, 9438); (9413, 9439); (9414, 9440); (9415, 9441); (9416, 9442);
   (9417, 9443); (9418, 9444); (9419, 9445); (9420, 9446); (9421, 9447);
   (9422, 9448); (9423, 9449); (11264, 11312); (11265, 11313);
   (11266, 11314); (11267, 11315); (11268, 11316); (11269, 11317);
   (11270, 11318); (11271, 11319); (11272, 11320); (11273, 11321);
   (11274, 11322); (11275, 11323); (11276, 11324); (11277, 11325);
   (11278, 11326); (11279, 11327); (11280, 11328); (11281, 11329);
   (11282, 11330); (11283, 11331); (11284, 11332); (11285, 11333);
   (11286, 11334); (11287, 11335); (11288, 11336); (11289, 11337);
   (11290, 11338); (11291, 11339); (11292, 11340); (11293, 11341);
   (11294, 11342); (11295, 11343); (11296, 11344); (11297, 11345);
   (11298, 11346); (11299, 11347); (11300, 11348); (11301, 11349);
   (11302, 11350); (11303, 11351); (11304, 11352); (11305, 11353);
   (11306, 11354); (11307, 11355); (11308, 11356); (11309, 11357);
   (11310, 11358); (11311, 11359); (11360, 11361); (11362, 619);
   (11363, 7549); (11364, 637); (11367, 11368); (11369, 11370);
   (11371, 11372); (11373, 593); (11374, 625); (11375, 592); (11376, 594);
   (11378, 11379); (11381, 11382); (11390, 575); (11391, 576);
   (11392, 11393); (11394, 11395); (11396, 11397); (11398, 11399);
   (11400, 11401); (11402, 11403); (11404, 11405); (11406, 11407);
   (11408, 11409); (11410, 11411); (11412, 11413); (11414, 11415);
   (11416, 11417); (11418, 11419); (11420, 11421); (11422, 11423);
   (11424, 11425); (11426, 11427); (11428, 11429); (11430, 11431);
   (11432, 11433); (11434, 11435); (11436, 11437); (11438, 11439);
   (11440, 11441); (11442, 11443); (11444, 11445); (11446, 11447);
   (11448, 11449); (11450, 11451); (11452, 11453); (11454, 11455);
   (11456, 11457); (11458, 11459); (11460, 11461); (11462, 11463);
   (11464, 11465); (11466, 11467); (11468, 11469); (11470, 11471);
   (11472, 11473); (11474, 11475); (11476, 11477); (11478, 11479);
   (11480, 11481); (11482, 11483); (11484, 11485); (11486, 11487);
   (11488, 11489); (11490, 11491); (11499, 11500); (11501, 11502);
   (11506, 11507); (42560, 42561); (42562, 42563); (42564, 42565);
   (42566, 42567); (42568, 42569); (42570, 42571); (42572, 42573);
   (42574, 42575); (42576, 42577); (42578, 42579); (42580, 42581);
   (42582, 42583); (42584, 42585); (42586, 42587); (42588, 42589);
   (42590, 42591); (42592, 42593); (42594, 42595); (42596, 42597);
   (42598, 42599); (42600, 42601); (42602, 42603); (42604, 42605);
   (42624, 42625); (42626, 42627); (42628, 42629); (42630, 42631);
   (42632, 42633); (42634, 42635); (42636, 42637); (42638, 42639);
   (42640, 42641); (42642, 42643); (42644, 42645); (42646, 42647);
   (42648, 42649); (42650, 42651); (42786, 42787); (42788, 42789);
   (42790, 42791); (42792, 42793); (42794, 42795); (42796, 42797);
   (42798, 42799); (42802, 42803); (42804, 42805); (42806, 42807);
   (42808, 42809); (42810, 42811); (42812, 42813); (42814, 42815);
   (42816, 42817); (42818, 42819); (42820, 42821); (42822, 42823);
   (42824, 42825); (42826, 42827); (42828, 42829); (42830, 42831);
   (42832, 42833); (42834, 42835); (42836, 42837); (42838, 42839);
   (42840, 42841); (42842, 42843); (42844, 42845); (42846, 42847);
   (42848, 42849); (42850, 42851); (42852, 42853); (42854, 42855);
   (42856, 42857); (42858, 42859); (42860, 42861); (42862, 42863);
   (42873, 42874); (42875, 42876); (42877, 7545); (42878, 42879);
   (42880, 42881); (42882, 42883); (42884, 42885); (42886, 42887);
   (42891, 42892); (42893, 613); (42896, 42897); (42898, 42899);
   (42902, 42903); (42904, 42905); (42906, 42907); (42908, 42909);
   (42910, 42911); (42912, 42913); (42914, 42915); (42916, 42917);
   (42918, 42919); (42920, 42921); (42922, 614); (42923, 604); (42924, 609);
   (42925, 620); (42926, 618); (42928, 670); (42929, 647); (42930, 669);
   (42931, 43859); (42932, 42933); (42934, 42935); (42936, 42937);
   (42938, 42939); (42940, 42941); (42942, 42943); (42944, 42945);
   (42946, 42947); (42948, 42900); (42949, 642); (42950, 7566);
   (42951, 42952); (42953, 42954); (42960, 42961); (42966, 42967);
   (42968, 42969); (42997, 42998); (65313, 65345); (65314, 65346);
   (65315, 65347); (65316, 65348); (65317, 65349); (65318, 65350);
   (65319, 65351); (65320, 65352); (65321, 65353); (65322, 65354);
   (65323, 65355); (65324, 65356); (65325, 65357); (65326, 65358);
   (65327, 65359); (65328, 65360); (65329, 65361); (65330, 65362);
   (65331, 65363); (65332, 65364); (65333, 65365); (65334, 65366);
   (65335, 65367); (65336, 65368); (65337, 65369); (65338, 65370);
   (66560, 66600); (66561, 66601); (66562, 66602); (66563, 66603);
   (66564, 66604); (66565, 66605); (66566, 66606); (66567, 66607);
   (66568, 66608); (66569, 66609); (66570, 66610); (66571, 66611);
   (66572, 66612); (66573, 66613); (66574, 66614); (66575, 66615);
   (66576, 66616); (66577, 66617); (66578, 66618); (66579, 66619);
   (66580, 66620); (66581, 66621); (66582, 66622); (66583, 66623);
   (66584, 66624); (66585, 66625); (66586, 66626); (66587, 66627);
   (66588, 66628); (66589, 66629); (66590, 66630); (66591, 66631);
   (66592, 66632); (66593, 66633); (66594, 66634); (66595, 66635);
   (66596, 66636); (66597, 66637); (66598, 66638); (66599, 66639);
   (66736, 66776); (66737, 66777); (66738, 66778); (66739, 66779);
   (66740, 66780); (66741, 66781); (66742, 66782); (66743, 66783);
   (66744, 66784); (66745, 66785); (66746, 66786); (66747, 66787);
   (66748, 66788); (66749, 66789); (66750, 66790); (66751, 66791);
   (66752, 66792); (66753, 66793); (66754, 66794); (66755, 66795);
   (66756, 66796); (66757, 66797); (66758, 66798); (66759, 66799);
   (66760, 66800); (66761, 66801); (66762, 66802); (66763, 66803);
   (66764, 66804); (66765, 66805); (66766, 66806); (66767, 66807);
   (66768, 66808); (66769, 66809); (66770, 66810); (66771, 66811);
   (66928, 66967); (66929, 66968); (66930, 66969); (66931, 66970);
   (66932, 66971); (66933, 66972); (66934, 66973); (66935, 66974);
   (66936, 66975); (66937, 66976); (66938, 66977); (66940, 66979);
   (66941, 66980); (66942, 66981); (66943, 66982); (66944, 66983);
   (66945, 66984); (66946, 66985); (66947, 66986); (66948, 66987);
   (66949, 66988); (66950, 66989); (66951, 66990); (66952, 66991);
   (66953, 66992); (66954, 66993); (66956, 66995); (66957, 66996);
   (66958, 66997); (66959, 66998); (66960, 66999); (66961, 67000);
   (66962, 67001); (66964, 67003); (66965, 67004); (68736, 68800);
   (68737, 68801); (68738, 68802); (68739, 68803); (68740, 68804);
   (68741, 68805); (68742, 68806); (68743, 68807); (68744, 68808);
   (68745, 68809); (68746, 68810); (68747, 68811); (68748, 68812);
   (68749, 68813); (68750, 68814); (68751, 68815); (68752, 68816);
   (68753, 68817); (68754, 68818); (68755, 68819); (68756, 68820);
   (68757, 68821); (68758, 68822); (68759, 68823); (68760, 68824);
   (68761, 68825); (68762, 68826); (68763, 68827); (68764, 68828);
   (68765, 68829); (68766, 68830); (68767, 68831); (68768, 68832);
   (68769, 68833); (68770, 68834); (68771, 68835); (68772, 68836);
   (68773, 68837); (68774, 68838); (68775, 68839); (68776, 68840);
   (68777, 68841); (68778, 68842); (68779, 68843); (68780, 68844);
   (68781, 68845); (68782, 68846); (68783, 68847); (68784, 68848);
   (68785, 68849); (68786, 68850); (71840, 71872); (71841, 71873);
   (71842, 71874); (71843, 71875); (71844, 71876); (71845, 71877);
   (71846, 71878); (71847, 71879); (71848, 71880); (71849, 71881);
   (71850, 71882); (71851, 71883); (71852, 71884); (71853, 71885);
   (71854, 71886); (71855, 71887); (71856, 71888); (71857, 71889);
   (71858, 71890); (71859, 71891); (71860, 71892); (71861, 71893);
   (71862, 71894); (71863, 71895); (71864, 71896); (71865, 71897);
   (71866, 71898); (71867, 71899); (71868, 71900); (71869, 71901);
   (71870, 71902); (71871, 71903); (93760, 93792); (93761, 93793);
   (93762, 93794); (93763, 93795); (93764, 93796); (93765, 93797);
   (93766, 93798); (93767, 93799); (93768, 93800); (93769, 93801);
   (93770, 93802); (93771, 93803); (93772, 93804); (93773, 93805);
   (93774, 93806); (93775, 93807); (93776, 93808); (93777, 93809);
   (93778, 93810); (93779, 93811); (93780, 93812); (93781, 93813);
   (93782, 93814); (93783, 93815); (93784, 93816); (93785, 93817);
   (93786, 93818); (93787, 93819); (93788, 93820); (93789, 93821);
   (93790, 93822); (93791, 93823); (125184, 125218); (125185, 125219);
   (125186, 125220); (125187, 125221); (125188, 125222); (125189, 125223);
   (125190, 125224); (125191, 125225); (125192, 125226); (125193, 125227);
   (125194, 125228); (125195, 125229); (125196, 125230); (125197, 125231);
   (125198, 125232); (125199, 125233); (125200, 125234); (125201, 125235);
   (125202, 125236); (125203, 125237); (125204, 125238); (125205, 125239);
   (125206, 125240); (125207, 125241); (125208, 125242); (125209, 125243);
   (125210, 125244); (125211, 125245); (125212, 125246); (125213, 125247);
   (125214, 125248); (125215, 125249); (125216, 125250); (125217, 125251) ].
End UnicodeData.

(** ** Text *)

Module Str.

Local Open Scope N_scope.

(** A [str] value: its code points, in order. *)
Definition str : Type := list N.

Fixpoint in_ranges (c : N) (rs : list (N * N)) : bool :=
  match rs with
  | [] => false
  | (lo, hi) :: rest => (lo <=? c) && (c <=? hi) || in_ranges c rest
  end.

Fixpoint assoc (c : N) (t : list (N * N)) : option N :=
  match t with
  | [] => None
  | (k, v) :: rest => if c =? k then Some v else assoc c rest
  end.

Definition is_digit (c : N) : bool := in_ranges c UnicodeData.digit_ranges.

Definition is_cased (c : N) : bool := in_ranges c UnicodeData.cased_ranges.

Definition is_case_ignorable (c : N) : bool :=
  in_ranges c UnicodeData.case_ignorable_ranges.

(** The lowercase of one character that is not a capital sigma: one code
    point, except for the capital I with a dot above (U+0130), which gives
    an i and a combining dot. *)
Definition to_lower (c : N) : N := default c (assoc c UnicodeData.lower_pairs).

Definition to_lower_full (c : N) : list N :=
  if c =? 304 then [105; 775] else [to_lower c].

(** The nearest character that is not case-ignorable. *)
Fixpoint first_not_ignorable (l : list N) : option N :=
  match l with
  | [] => None
  | c :: rest => if is_case_ignorable c then first_not_ignorable rest else Some c
  end.

(** A capital sigma is final when a cased letter stands before it and
    none after it, case-ignorable characters skipped on both sides:
    [before] is the text before the sigma, nearest character first. *)
Definition final_sigma (before after : list N) : bool :=
  match first_not_ignorable before with
  | Some c =>
      is_cased c &&
      match first_not_ignorable after with
      | Some d => negb (is_cased d)
      | None => true
      end
  | None => false
  end.

Fixpoint lower_from (before s : list N) : list N :=
  match s with
  | [] => []
  | c :: rest =>
      (if c =? 931 then [if final_sigma before rest then 962 else 963]
       else to_lower_full c)
      ++ lower_from (c :: before) rest
  end.

(** [s.lower()] *)
Definition lower (s : str) : str := lower_from [] s.

(** [s.isdigit()]: false on the empty string. *)
Definition isdigit (s : str) : bool :=
  match s with
  | [] => false
  | _ :: _ => forallb is_digit s
  end.

(** Truth value of a [str]: [not s] holds of the empty string only. *)
Definition truthy (s : str) : bool :=
  match s with
  | [] => false
  | _ :: _ => true
  end.

Definition byte (a : ascii) : N := N_of_ascii a.

(** The code points of a literal of this file, which is UTF-8 text. *)
Fixpoint of_utf8 (s : string) : str :=
  match s with
  | EmptyString => []
  | String a r =>
      let x := byte a in
      if x <? 192 then x :: of_utf8 r
      else if x <? 224 then
        match r with
        | String b r1 => ((x - 192) * 64 + (byte b - 128)) :: of_utf8 r1
        | _ => x :: of_utf8 r
        end
      else if x <? 240 then
        match r with
        | String b (String c r2) =>
            ((x - 224) * 4096 + (byte b - 128) * 64 + (byte c - 128)) :: of_utf8 r2
        | _ => x :: of_utf8 r
        end
      else
        match r with
        | String b (String c (String d r3)) =>
            ((x - 240) * 262144 + (byte b - 128) * 4096 + (byte c - 128) * 64
             + (byte d - 128)) :: of_utf8 r3
        | _ => x :: of_utf8 r
        end
  end.

End Str.

(** A literal, as in Python source. *)
Definition u (s : string) : Str.str := Str.of_utf8 s.

(** ** errors.py *)

Record HTTPException := { status_code : Z; detail : string }.

Definition not_found (detail : string) : HTTPException :=
  {| status_code := 404; detail := detail |}.

Definition bad_request (detail : string) : HTTPException :=
  {| status_code := 400; detail := detail |}.

Definition conflict (detail : string) : HTTPException :=
  {| status_code := 409; detail := detail |}.

(** What a handler can raise: one of the HTTP errors above, or the
    [IndexError] of a list subscript or [pop] out of range. *)
Inductive Exception :=
| HTTP (e : HTTPException)
| IndexError.

(** ** Records and the process state *)

Record Service := { name : Str.str; category : Str.str }.

(** The request body of POST has the same two fields. *)
Definition ServiceCreate := Service.

#[global] Instance Service_eq_dec : EqDecision Service.
Proof. solve_decision. Defined.

(** [logger.info(f"Deleting service at index={match_idx}: {...}")]: the
    entry keeps the two interpolated values. *)
Definition LogRecord : Type := nat * Service.

Record World := { services : list Service; logged : list LogRecord }.

Definition aws_services : list Service :=
  [ {| name := u "S3"; category := u "Storage" |};
    {| name := u "Lambda"; category := u "Compute" |};
    {| name := u "EC2"; category := u "Compute" |};
    {| name := u "RDS"; category := u "Database" |};
    {| name := u "DynamoDB"; category := u "Database" |} ].

Definition startup : World := {| services := aws_services; logged := [] |}.

(** ** The handler monad *)

Inductive Outcome (A : Type) :=
| Return (a : A)
| Raise (e : Exception).
Arguments Return {A} a.
Arguments Raise {A} e.

Definition M (A : Type) : Type := World → Outcome A * World.

#[global] Instance M_ret : MRet M := λ A a w, (Return a, w).

#[global] Instance M_bind : MBind M := λ A B k m w,
  match m w with
  | (Return a, w') => k a w'
  | (Raise e, w') => (Raise e, w')
  end.

Definition raise {A} (e : HTTPException) : M A := λ w, (Raise (HTTP e), w).

Definition read_services : M (list Service) := λ w, (Return (services w), w).

(** [aws_services.append(s)] *)
Definition append (s : Service) : M unit := λ w,
  (Return (), {| services := services w ++ [s]; logged := logged w |}).

(** [aws_services[i]] *)
Definition getitem (i : nat) : M Service := λ w,
  match services w !! i with
  | Some s => (Return s, w)
  | None => (Raise IndexError, w)
  end.

(** [aws_services.pop(i)] *)
Definition pop (i : nat) : M Service := λ w,
  match services w !! i with
  | Some s => (Return s, {| services := delete i (services w); logged := logged w |})
  | None => (Raise IndexError, w)
  end.

Definition logger_info (r : LogRecord) : M unit := λ w,
  (Return (), {| services := services w; logged := logged w ++ [r] |}).

(** ** api.py: the four handlers *)

(** The double-quote character of the first error message. *)
Definition dq : string := String (ascii_of_N 34) EmptyString.

Definition msg_missing : string :=
  "Missing or invalid " +:+ dq +:+ "name" +:+ dq +:+ " or " +:+ dq +:+ "category" +:+ dq +:+ " field".
Definition msg_exists : string :=
  "Service with same name and category already exists (case-insensitive)".
Definition msg_numeric : string := "Service name must not be numeric only".
Definition msg_not_found : string := "Service not found".
Definition msg_not_found_exact : string :=
  "Service with specified name and category not found".

(** [if name:] on a query parameter that defaults to [None]. *)
Definition given (q : option Str.str) : bool :=
  match q with
  | Some s => Str.truthy s
  | None => false
  end.

Definition name_is (q : Str.str) (s : Service) : Prop :=
  Str.lower (name s) = Str.lower q.

Definition category_is (q : Str.str) (s : Service) : Prop :=
  Str.lower (category s) = Str.lower q.

#[global] Instance name_is_dec q s : Decision (name_is q s).
Proof. unfold name_is. apply _. Defined.

#[global] Instance category_is_dec q s : Decision (category_is q s).
Proof. unfold category_is. apply _. Defined.

(** GET /services *)
Definition get_services (qname qcategory : option Str.str) : M (list Service) :=
  results ← read_services;
  let results :=
    match qname with
    | Some n => if Str.truthy n then filter (name_is n) results else results
    | None => results
    end in
  let results :=
    match qcategory with
    | Some c => if Str.truthy c then filter (category_is c) results else results
    | None => results
    end in
  mret results.

(** The pair that identifies a record, both fields lower-cased. *)
Definition pair_key (s : Service) : Str.str * Str.str :=
  (Str.lower (name s), Str.lower (category s)).

(** POST /services. Both fields are [str] by the request model, so the
    two [isinstance] tests hold. *)
Definition add_service (payload : ServiceCreate) : M (list Service) :=
  let nm := name payload in
  let cat := category payload in
  if negb (Str.truthy nm) || negb (Str.truthy cat) then
    raise (bad_request msg_missing)
  else
    current ← read_services;
    let existing_pairs : gset (Str.str * Str.str) := list_to_set (pair_key <$> current) in
    if bool_decide ((Str.lower nm, Str.lower cat) ∈ existing_pairs) then
      raise (conflict msg_exists)
    else if Str.isdigit nm then
      raise (bad_request msg_numeric)
    else
      append {| name := nm; category := cat |};;
      read_services.

(** [for idx, s in enumerate(aws_services): if hit(s): match_idx = idx; break] *)
Fixpoint find_match_idx (hit : Service → bool) (idx : nat) (l : list Service)
  : option nat :=
  match l with
  | [] => None
  | s :: rest => if hit s then Some idx else find_match_idx hit (S idx) rest
  end.

(** After the loop: [if match_idx is None: raise ...], then log, pop and
    answer the list. *)
Definition delete_at (match_idx : option nat) (msg : string) : M (list Service) :=
  match match_idx with
  | None => raise (not_found msg)
  | Some i =>
      s ← getitem i;
      logger_info (i, s);;
      pop i;;
      read_services
  end.

(** The body the two DELETE handlers have in common: they differ in the
    test of the loop and in the message. *)
Definition delete_first (hit : Service → bool) (msg : string) : M (list Service) :=
  current ← read_services;
  delete_at (find_match_idx hit 0 current) msg.

(** DELETE /services/{name} *)
Definition delete_service (qname : Str.str) : M (list Service) :=
  delete_first (λ s, bool_decide (name_is qname s)) msg_not_found.

(** DELETE /services/{name}/{category} *)
Definition delete_service_exact (qname qcategory : Str.str) : M (list Service) :=
  delete_first
    (λ s, bool_decide (name_is qname s) && bool_decide (category_is qcategory s))
    msg_not_found_exact.

(** ** Requests and runs *)

Inductive Request :=
| GET_services (qname qcategory : option Str.str)
| POST_services (payload : ServiceCreate)
| DELETE_service (qname : Str.str)
| DELETE_service_exact (qname qcategory : Str.str).

Definition handle (r : Request) : M (list Service) :=
  match r with
  | GET_services qn qc => get_services qn qc
  | POST_services p => add_service p
  | DELETE_service qn => delete_service qn
  | DELETE_service_exact qn qc => delete_service_exact qn qc
  end.

(** The world after serving the requests in order; a request that raises
    is answered with its error and the next one is served. *)
Fixpoint run (reqs : list Request) (w : World) : World :=
  match reqs with
  | [] => w
  | r :: rest => run rest (handle r w).2
  end.

(** A record with letters outside ASCII, and a registry that holds it,
    for the examples. *)
Definition ecole : Service := {| name := u "École"; category := u "Édition" |}.

Definition startup_ecole : World :=
  {| services := aws_services ++ [ecole]; logged := [] |}.

(** The method of a request. *)
Definition is_POST (r : Request) : bool :=
  match r with
  | POST_services _ => true
  | _ => false
  end.

Definition is_DELETE (r : Request) : bool :=
  match r with
  | DELETE_service _ | DELETE_service_exact _ _ => true
  | _ => false
  end.

(** ** What the specification says of listing

    [list_spec] follows the words of the specification: a filter that is
    given keeps the records whose field matches it case-insensitively, and
    both are applied when both are given. *)

Definition filter_matches (q : option Str.str) (field : Str.str) : Prop :=
  match q with
  | Some v => Str.lower field = Str.lower v
  | None => True
  end.

#[global] Instance filter_matches_dec q field : Decision (filter_matches q field).
Proof. destruct q; simpl; apply _. Defined.

Definition list_spec (nameFilter categoryFilter : option Str.str)
    (registry : list Service) : list Service :=
  filter (λ s, filter_matches nameFilter (name s) ∧
               filter_matches categoryFilter (category s)) registry.

(** The filter the handler really applies: an empty string counts as no
    filter at all. *)
Definition effective (q : option Str.str) : option Str.str :=
  if given q then q else None.

(** Two records are the same entry when their keys agree. *)
Definition same_pair (s t : Service) : Prop := pair_key s = pair_key t.

#[global] Instance same_pair_dec s t : Decision (same_pair s t).
Proof. unfold same_pair. apply _. Defined.

(** ** Digits-only names *)

(** "Consists solely of digit characters", in the words of the
    specification; [Str.isdigit] decides it. *)
Definition digits_only (s : Str.str) : Prop :=
  s ≠ [] ∧ Forall (λ c, Str.is_digit c = true) s.

(** ** How one request can change the registry *)

Inductive change : list Service → list Service → Prop :=
| change_none l :
    change l l
| change_append l p :
    Str.truthy (name p) = true →
    Str.truthy (category p) = true →
    pair_key p ∉ pair_key <$> l →
    Str.isdigit (name p) = false →
    change l (l ++ [p])
| change_remove l1 s l2 :
    change (l1 ++ s :: l2) (l1 ++ l2).

(** ** The two data-model invariants and the shape of records *)

Definition unique_pairs (l : list Service) : Prop := NoDup (pair_key <$> l).

Definition record_ok (s : Service) : Prop :=
  Str.truthy (name s) = true ∧ Str.truthy (category s) = true ∧
  Str.isdigit (name s) = false.

(** * Text lemmas *)

Module StrFacts.
Import Str.

Lemma truthy_true (s : str) : truthy s = true ↔ s ≠ [].
Proof. destruct s; simpl; split; intros; congruence. Qed.

Lemma to_lower_full_not_nil c : to_lower_full c ≠ [].
Proof. unfold to_lower_full. by destruct (c =? 304)%N. Qed.

(** Lowering keeps a text non-empty: every character gives at least one. *)
Lemma lower_from_nil before s : lower_from before s = [] ↔ s = [].
Proof.
  destruct s as [|c s]; simpl; [done|]. split; [|done].
  intros [H _]%app_eq_nil. exfalso. revert H.
  destruct (c =? 931)%N; [done | apply to_lower_full_not_nil].
Qed.

Lemma truthy_lower s : truthy (lower s) = truthy s.
Proof.
  destruct s as [|c s]; [done|].
  destruct (lower (c :: s)) eqn:E; [|done].
  by apply lower_from_nil in E.
Qed.

Lemma truthy_same_lower s t : lower s = lower t → truthy s = truthy t.
Proof. intros E. by rewrite <- (truthy_lower s), E, truthy_lower. Qed.

Lemma forallb_is_digit (s : str) :
  forallb is_digit s = true ↔ Forall (λ c, is_digit c = true) s.
Proof.
  induction s as [|c s IH]; simpl.
  - split; [constructor | done].
  - by rewrite andb_true_iff, Forall_cons, IH.
Qed.

(** [isdigit] is "non-empty and made of digit characters only". *)
Lemma isdigit_chars (s : str) :
  isdigit s = true ↔ s ≠ [] ∧ Forall (λ c, is_digit c = true) s.
Proof.
  rewrite <- forallb_is_digit. destruct s as [|c s]; unfold isdigit.
  - split; [done | intros [H _]; by destruct H].
  - split; [by intros ? | by intros [_ ?]].
Qed.

(** A non-empty text that is not digits-only has a non-digit character. *)
Lemma not_isdigit_chars (s : str) :
  truthy s = true → isdigit s = false →
  ∃ c, c ∈ s ∧ is_digit c = false.
Proof.
  intros Ht Hd.
  assert (Hn : ¬ Forall (λ c, is_digit c = true) s).
  { intros HF. apply truthy_true in Ht.
    assert (isdigit s = true) by (apply isdigit_chars; done). congruence. }
  apply not_Forall_Exists in Hn; [|intros c; apply _].
  apply Exists_exists in Hn as (c & Hc & Hb).
  exists c. split; [done|]. by apply not_true_is_false.
Qed.

(** Digits have no case: no digit is the source or the target of the
    lowercase mapping. *)
Lemma lower_pairs_no_digit :
  Forall (λ kv, is_digit kv.1 = false ∧ is_digit kv.2 = false)
         UnicodeData.lower_pairs.
Proof.
  apply Forall_forall. intros kv Hkv.
  assert (H : forallb (λ kv, negb (is_digit kv.1) && negb (is_digit kv.2))
                      UnicodeData.lower_pairs = true) by (vm_compute; reflexivity).
  rewrite forallb_forall in H. apply list_elem_of_In, H in Hkv.
  apply andb_true_iff in Hkv as [H1 H2].
  by rewrite negb_true_iff in H1, H2.
Qed.

Lemma assoc_Some c t v : assoc c t = Some v → (c, v) ∈ t.
Proof.
  induction t as [|[k x] t IH]; simpl; [done|].
  destruct (N.eqb_spec c k) as [->|_].
  - intros [= ->]. by left.
  - intros H. right. by apply IH.
Qed.

Lemma is_digit_to_lower c : is_digit (to_lower c) = is_digit c.
Proof.
  unfold to_lower. destruct (assoc c UnicodeData.lower_pairs) as [v|] eqn:E; [|done].
  apply assoc_Some in E. pose proof lower_pairs_no_digit as H.
  rewrite Forall_forall in H. destruct (H _ E) as [H1 H2]. simpl in *. congruence.
Qed.

(** What one character gives when lowered is made of digits exactly when
    the character is a digit. *)
Lemma forallb_is_digit_lower_char c (final : bool) :
  forallb is_digit
    (if (c =? 931)%N then [if final then 962%N else 963%N] else to_lower_full c)
  = is_digit c.
Proof.
  destruct (N.eqb_spec c 931) as [->|_]; [by destruct final|].
  unfold to_lower_full. destruct (N.eqb_spec c 304) as [->|_]; [done|].
  simpl. by rewrite andb_true_r, is_digit_to_lower.
Qed.

Lemma forallb_is_digit_lower_from before s :
  forallb is_digit (lower_from before s) = forallb is_digit s.
Proof.
  revert before. induction s as [|c s IH]; intros before; simpl; [done|].
  by rewrite forallb_app, forallb_is_digit_lower_char, IH.
Qed.

Lemma isdigit_lower s : isdigit (lower s) = isdigit s.
Proof.
  destruct s as [|c s]; [done|].
  destruct (lower (c :: s)) as [|d r] eqn:E; [by apply lower_from_nil in E|].
  unfold isdigit. rewrite <- E. apply forallb_is_digit_lower_from.
Qed.

(** Texts equal up to case are digits-only together. *)
Lemma isdigit_same_lower s t : lower s = lower t → isdigit s = isdigit t.
Proof. intros E. by rewrite <- (isdigit_lower s), E, isdigit_lower. Qed.

End StrFacts.

(** The two text functions on samples: accented and Greek capitals, a
    final and a medial sigma, the dotted capital I, digits of several
    scripts. *)
Example lower_samples :
  Str.lower (u "École") = u "école"
  ∧ Str.lower (u "DynamoDB") = u "dynamodb"
  ∧ Str.lower (u "ΟΔΟΣ ΣΟΦΟΣ") = u "οδος σοφος"
  ∧ Str.lower (u "İstanbul") = [105; 775; 115; 116; 97; 110; 98; 117; 108]%N
  ∧ Str.lower (u "١٢٣") = u "١٢٣".
Proof. repeat split; by vm_compute. Qed.

Example isdigit_samples :
  Str.isdigit (u "123") = true ∧ Str.isdigit (u "١٢٣") = true
  ∧ Str.isdigit (u "²") = true ∧ Str.isdigit (u "１２") = true
  ∧ Str.isdigit (u "12a") = false ∧ Str.isdigit (u "S3") = false
  ∧ Str.isdigit (u "3.5") = false ∧ Str.isdigit [] = false.
Proof. repeat split; by vm_compute. Qed.

(** * The handlers, step by step *)

Section Equations.

Implicit Types (w : World) (l : list Service) (s p : Service).

Lemma pair_key_in_set (k : Str.str * Str.str) l :
  bool_decide (k ∈ (list_to_set (pair_key <$> l) : gset (Str.str * Str.str)))
  = bool_decide (k ∈ pair_key <$> l).
Proof. apply bool_decide_ext. by rewrite elem_of_list_to_set. Qed.

Lemma pair_key_elem p l :
  pair_key p ∈ pair_key <$> l ↔ ∃ s, s ∈ l ∧ same_pair s p.
Proof.
  rewrite list_elem_of_fmap. unfold same_pair.
  split; intros (s & H1 & H2); exists s; done.
Qed.

(** The body of POST as a cascade of tests on the current registry. *)
Lemma add_service_eq p w :
  add_service p w =
    if negb (Str.truthy (name p)) || negb (Str.truthy (category p)) then
      (Raise (HTTP (bad_request msg_missing)), w)
    else if bool_decide (pair_key p ∈ pair_key <$> services w) then
      (Raise (HTTP (conflict msg_exists)), w)
    else if Str.isdigit (name p) then
      (Raise (HTTP (bad_request msg_numeric)), w)
    else
      (Return (services w ++ [p]),
       {| services := services w ++ [p]; logged := logged w |}).
Proof.
  unfold add_service.
  destruct (negb _ || negb _); [done|].
  unfold mbind, M_bind, read_services; simpl.
  rewrite pair_key_in_set. fold (pair_key p).
  destruct (bool_decide _); [done|].
  destruct (Str.isdigit _); [done|].
  by destruct p.
Qed.

Lemma get_services_eq qn qc w :
  get_services qn qc w =
    (Return
       (let r1 := if given qn then filter (name_is (default [] qn)) (services w)
                  else services w in
        if given qc then filter (category_is (default [] qc)) r1 else r1),
     w).
Proof.
  unfold get_services, mbind, M_bind, read_services, mret, M_ret; simpl.
  destruct qn as [n|], qc as [c|]; simpl;
    repeat match goal with |- context [Str.truthy ?x] => destruct (Str.truthy x) end;
    done.
Qed.

(** The loop stops at the first hit and reports its position. *)
Lemma find_match_idx_None hit i l :
  find_match_idx hit i l = None ↔ Forall (λ s, hit s = false) l.
Proof.
  revert i. induction l as [|s l IH]; intros i; simpl.
  - split; [constructor | done].
  - rewrite Forall_cons. destruct (hit s) eqn:E.
    + split; [done | intros [? _]; done].
    + rewrite IH. split; [done | by intros [_ ?]].
Qed.

Lemma find_match_idx_Some hit i l j :
  find_match_idx hit i l = Some j →
  ∃ l1 s l2, l = l1 ++ s :: l2 ∧ Forall (λ x, hit x = false) l1 ∧
             hit s = true ∧ j = i + length l1.
Proof.
  revert i. induction l as [|s l IH]; intros i; simpl; [done|].
  destruct (hit s) eqn:E.
  - intros [= <-]. exists [], s, l. simpl. repeat split; [constructor | done | lia].
  - intros (l1 & t & l2 & -> & HF & Ht & ->)%IH.
    exists (s :: l1), t, l2. simpl. repeat split; [by constructor | done | lia].
Qed.

Lemma delete_at_None msg w :
  delete_at None msg w = (Raise (HTTP (not_found msg)), w).
Proof. done. Qed.

(** At the position of a record: one log entry, then the record goes. *)
Lemma delete_at_Some msg w l1 s l2 :
  services w = l1 ++ s :: l2 →
  delete_at (Some (length l1)) msg w =
    (Return (l1 ++ l2),
     {| services := l1 ++ l2; logged := logged w ++ [(length l1, s)] |}).
Proof.
  destruct w as [sv lg]; simpl; intros ->.
  unfold delete_at, mbind, M_bind, getitem, logger_info, pop, read_services.
  simpl. rewrite list_lookup_middle by done. simpl.
  rewrite list_lookup_middle by done. simpl.
  by rewrite delete_middle.
Qed.

(** Either no record is hit and the handler raises, or the registry
    splits at the first hit, which is logged and removed. *)
Lemma delete_first_hit (hit : Service → bool) msg w :
  let res := delete_first hit msg w in
  (Forall (λ s, hit s = false) (services w) ∧
   res = (Raise (HTTP (not_found msg)), w))
  ∨ (∃ l1 s l2,
       services w = l1 ++ s :: l2 ∧ Forall (λ x, hit x = false) l1 ∧
       hit s = true ∧
       res = (Return (l1 ++ l2),
              {| services := l1 ++ l2;
                 logged := logged w ++ [(length l1, s)] |})).
Proof.
  intros res; subst res.
  unfold delete_first, mbind, M_bind, read_services; cbn beta iota.
  destruct (find_match_idx hit 0 (services w)) as [j|] eqn:E.
  - right. apply find_match_idx_Some in E as (l1 & s & l2 & E & HF & Hs & ->).
    exists l1, s, l2. repeat split; try done.
    by apply delete_at_Some.
  - left. by apply find_match_idx_None in E.
Qed.

End Equations.

(** * Every request is one change, and the invariants survive changes *)

Lemma add_service_change p w :
  change (services w) (services (add_service p w).2).
Proof.
  rewrite add_service_eq.
  destruct (Str.truthy (name p)) eqn:En; simpl; [|constructor].
  destruct (Str.truthy (category p)) eqn:Ec; simpl; [|constructor].
  case_bool_decide as Hk; simpl; [constructor|].
  destruct (Str.isdigit (name p)) eqn:Ed; simpl; [constructor|].
  by constructor.
Qed.

Lemma delete_change hit msg w :
  change (services w) (services (delete_first hit msg w).2).
Proof.
  destruct (delete_first_hit hit msg w) as [[_ ->]|(l1 & s & l2 & -> & _ & _ & ->)];
    simpl; constructor.
Qed.

Lemma handle_change r w : change (services w) (services (handle r w).2).
Proof.
  destruct r as [qn qc|p|qn|qn qc]; cbn [handle].
  - rewrite get_services_eq. constructor.
  - apply add_service_change.
  - apply delete_change.
  - apply delete_change.
Qed.

(** A property of registries that holds at start-up and survives every
    change holds after every run. *)
Lemma run_preserves (I : list Service → Prop) :
  (∀ l l', change l l' → I l → I l') →
  ∀ reqs w, I (services w) → I (services (run reqs w)).
Proof.
  intros Hstep reqs. induction reqs as [|r reqs IH]; intros w Hw; simpl; [done|].
  apply IH. eapply Hstep; [apply handle_change | done].
Qed.

Lemma unique_pairs_change l l' : change l l' → unique_pairs l → unique_pairs l'.
Proof.
  unfold unique_pairs. destruct 1 as [l|l p _ _ Hfresh _|l1 s l2]; [done|..].
  - intros Hl. rewrite fmap_app. apply NoDup_app. repeat split; [done| |].
    + intros k Hk [->|[]%elem_of_nil]%elem_of_cons. done.
    + simpl. apply NoDup_singleton.
  - rewrite !fmap_app, fmap_cons.
    rewrite !NoDup_app, NoDup_cons.
    intros (H1 & H2 & H3 & H4). repeat split; [done| |done].
    intros k Hk Hk'. apply (H2 k Hk). by right.
Qed.

Lemma record_ok_change l l' :
  change l l' → Forall record_ok l → Forall record_ok l'.
Proof.
  destruct 1 as [l|l p Hn Hc _ Hd|l1 s l2]; [done|..].
  - intros Hl. apply Forall_app. split; [done|]. by repeat constructor.
  - rewrite !Forall_app, Forall_cons. by intros (? & _ & ?).
Qed.

Lemma unique_pairs_startup : unique_pairs aws_services.
Proof. unfold unique_pairs. apply (bool_decide_unpack _). by vm_compute. Qed.

Lemma record_ok_startup : Forall record_ok aws_services.
Proof. repeat constructor. Qed.

Lemma unique_pairs_run reqs : unique_pairs (services (run reqs startup)).
Proof. apply run_preserves; [apply unique_pairs_change | apply unique_pairs_startup]. Qed.

Lemma record_ok_run reqs : Forall record_ok (services (run reqs startup)).
Proof. apply run_preserves; [apply record_ok_change | apply record_ok_startup]. Qed.

(** * Listing *)

Lemma effective_matches_name qn s :
  filter_matches (effective qn) (name s) ↔
  (if given qn then name_is (default [] qn) s else True).
Proof. unfold effective. destruct qn as [n|]; simpl; [|done]. by destruct (Str.truthy n). Qed.

Lemma effective_matches_category qc s :
  filter_matches (effective qc) (category s) ↔
  (if given qc then category_is (default [] qc) s else True).
Proof. unfold effective. destruct qc as [c|]; simpl; [|done]. by destruct (Str.truthy c). Qed.

Lemma filter_keeps_all {A} (P : A → Prop) `{!∀ x, Decision (P x)} (l : list A) :
  (∀ x, P x) → filter P l = l.
Proof.
  intros HP. induction l as [|x l IH]; [done|].
  by rewrite filter_cons_True, IH.
Qed.

Lemma filter_drops_all {A} (P : A → Prop) `{!∀ x, Decision (P x)} (l : list A) :
  (∀ x, x ∈ l → ¬ P x) → filter P l = [].
Proof.
  induction l as [|x l IH]; intros HP; [done|].
  rewrite filter_cons_False by (apply HP; left).
  apply IH. intros y Hy. apply HP. by right.
Qed.

Lemma list_spec_elem qn qc l s :
  s ∈ list_spec qn qc l ↔
  s ∈ l ∧ filter_matches qn (name s) ∧ filter_matches qc (category s).
Proof. unfold list_spec. rewrite list_elem_of_filter. tauto. Qed.

Lemma list_spec_sublist qn qc l : list_spec qn qc l `sublist_of` l.
Proof. apply sublist_filter. Qed.

(** C1, at a concrete input: with the empty string as name filter the
    handler answers the whole start-up registry, whereas no record is
    named by the empty string. *)
Lemma get_services_empty_filter :
  get_services (Some []) None startup = (Return aws_services, startup) ∧
  list_spec (Some []) None (services startup) = [] ∧
  (get_services (Some []) None startup).1
    ≠ Return (list_spec (Some []) None (services startup)).
Proof. repeat split. by vm_compute. Qed.

(** C1, amended: listing never raises and leaves the world as it is; it
    answers, in registry order, exactly the records that match every filter
    that is given and not the empty string (case-insensitive equality of
    the whole field); a filter that is absent or empty is not applied. *)
Theorem get_services_spec (qn qc : option Str.str) (w : World) :
  get_services qn qc w
    = (Return (list_spec (effective qn) (effective qc) (services w)), w)
  ∧ list_spec (effective qn) (effective qc) (services w) `sublist_of` services w
  ∧ ∀ s, s ∈ list_spec (effective qn) (effective qc) (services w) ↔
         s ∈ services w ∧
         filter_matches (effective qn) (name s) ∧
         filter_matches (effective qc) (category s).
Proof.
  split; [|split; [apply list_spec_sublist | intros s; apply list_spec_elem]].
  rewrite get_services_eq. do 2 f_equal. unfold list_spec. cbn zeta.
  destruct (given qn) eqn:En, (given qc) eqn:Ec.
  - rewrite list_filter_filter. apply list_filter_iff. intros s.
    rewrite effective_matches_name, effective_matches_category, En, Ec. tauto.
  - apply list_filter_iff. intros s.
    rewrite effective_matches_name, effective_matches_category, En, Ec. tauto.
  - apply list_filter_iff. intros s.
    rewrite effective_matches_name, effective_matches_category, En, Ec. tauto.
  - symmetry. apply filter_keeps_all. intros s.
    rewrite effective_matches_name, effective_matches_category, En, Ec. tauto.
Qed.

Lemma get_services_spec_witness :
  get_services (Some (u "éCOLE")) (Some (u "ÉDITION")) startup_ecole
    = (Return [ecole], startup_ecole)
  ∧ get_services (Some (u "école")) (Some []) startup_ecole
    = (Return [ecole], startup_ecole)
  ∧ get_services (Some (u "cole")) None startup_ecole
    = (Return [], startup_ecole).
Proof.
  split; [|split].
  - destruct (get_services_spec (Some (u "éCOLE")) (Some (u "ÉDITION")) startup_ecole)
      as [-> _]. by vm_compute.
  - destruct (get_services_spec (Some (u "école")) (Some []) startup_ecole)
      as [-> _]. by vm_compute.
  - destruct (get_services_spec (Some (u "cole")) None startup_ecole)
      as [-> _]. by vm_compute.
Defined.

(** * Adding *)

Lemma isdigit_digits_only s : Str.isdigit s = true ↔ digits_only s.
Proof. apply StrFacts.isdigit_chars. Qed.

Lemma isdigit_not_digits_only s : Str.isdigit s = false ↔ ¬ digits_only s.
Proof.
  rewrite <- isdigit_digits_only.
  split; [by intros -> | apply not_true_is_false].
Qed.

Lemma same_pair_fields s p :
  same_pair s p ↔
  Str.lower (name s) = Str.lower (name p) ∧
  Str.lower (category s) = Str.lower (category p).
Proof. unfold same_pair, pair_key. split; [by intros [= -> ->] | by intros [-> ->]]. Qed.

(** The duplicate test fires as soon as both fields are non-empty. *)
Lemma add_service_duplicate p s w :
  Str.truthy (name p) = true → Str.truthy (category p) = true →
  s ∈ services w → same_pair s p →
  add_service p w = (Raise (HTTP (conflict msg_exists)), w).
Proof.
  intros Hn Hc Hs Hsp. rewrite add_service_eq, Hn, Hc. simpl.
  rewrite bool_decide_eq_true_2; [done|].
  apply pair_key_elem. by exists s.
Qed.

(** A record equal up to case to a well-formed one is well-formed. *)
Lemma record_ok_same_pair s p : same_pair s p → record_ok s → record_ok p.
Proof.
  intros [En Ec]%same_pair_fields (Hn & Hc & Hd). repeat split.
  - by rewrite <- (StrFacts.truthy_same_lower _ _ En).
  - by rewrite <- (StrFacts.truthy_same_lower _ _ Ec).
  - by rewrite <- (StrFacts.isdigit_same_lower _ _ En).
Qed.

(** C2: a pair of non-empty texts, new to the registry up to case and
    whose name is not digits-only, is appended at the end; the records
    that were there stay, in their order; the answer is the whole updated
    registry; afterwards the new record is the only one with that pair. *)
Theorem add_service_appends (p : ServiceCreate) (w : World) :
  name p ≠ [] → category p ≠ [] →
  (∀ s, s ∈ services w → ¬ same_pair s p) →
  ¬ digits_only (name p) →
  add_service p w
    = (Return (services w ++ [p]),
       {| services := services w ++ [p]; logged := logged w |})
  ∧ filter (λ s, same_pair s p) (services w ++ [p]) = [p].
Proof.
  intros Hn%StrFacts.truthy_true Hc%StrFacts.truthy_true Hnew
         Hd%isdigit_not_digits_only.
  split.
  - rewrite add_service_eq, Hn, Hc, Hd. simpl.
    rewrite bool_decide_eq_false_2; [done|].
    rewrite pair_key_elem. intros (s & Hs & Hsp). by apply (Hnew s).
  - rewrite filter_app, (filter_cons_True _ p), filter_nil by done.
    by rewrite (filter_drops_all _ _ Hnew).
Qed.

Lemma add_service_appends_witness :
  add_service {| name := u "Redshift"; category := u "Database" |} startup
    = (Return (aws_services ++ [ {| name := u "Redshift"; category := u "Database" |} ]),
       {| services := aws_services ++ [ {| name := u "Redshift"; category := u "Database" |} ];
          logged := [] |})
  ∧ filter (λ s, same_pair s {| name := u "Redshift"; category := u "Database" |})
      (aws_services ++ [ {| name := u "Redshift"; category := u "Database" |} ])
    = [ {| name := u "Redshift"; category := u "Database" |} ].
Proof.
  apply (add_service_appends {| name := u "Redshift"; category := u "Database" |} startup).
  - discriminate.
  - discriminate.
  - apply Forall_forall. apply (bool_decide_unpack _). vm_compute. exact I.
  - apply isdigit_not_digits_only. reflexivity.
Defined.




(** C5, at a concrete input: the registry holds a record with a
    digits-only name, and the same pair up to case is submitted; the
    duplicate test answers 409 before the digits test is reached. *)
Lemma add_service_numeric_existing :
  let s := {| name := u "911"; category := u "Emergency" |} in
  let p := {| name := u "911"; category := u "emergency" |} in
  let w := {| services := [s]; logged := [] |} in
  digits_only (name p) ∧
  add_service p w = (Raise (HTTP (conflict msg_exists)), w) ∧
  ∀ d, add_service p w ≠ (Raise (HTTP (bad_request d)), w).
Proof.
  repeat split.
  - discriminate.
  - repeat constructor.
  - intros d. by vm_compute.
Qed.

(** C5, amended: whatever the registry holds, adding a record whose name
    is non-empty and made of digits only fails and changes nothing; the
    failure is a 400 error when no record has the same pair up to case,
    and so it is when no record has a digits-only name, as in every state
    the process can reach (C9). *)
Theorem add_service_numeric (p : ServiceCreate) (w : World) :
  digits_only (name p) →
  (∀ s, s ∈ services w → ¬ same_pair s p) ∨
  (∀ s, s ∈ services w → ¬ digits_only (name s)) →
  add_service p w
    = (Raise (HTTP (bad_request
                      (if Str.truthy (category p) then msg_numeric else msg_missing))),
       w).
Proof.
  intros Hd Hw. pose proof Hd as [Hn%StrFacts.truthy_true _].
  apply isdigit_digits_only in Hd.
  rewrite add_service_eq, Hn, Hd.
  destruct (Str.truthy (category p)); simpl; [|done].
  rewrite bool_decide_eq_false_2; [done|].
  rewrite pair_key_elem. intros (s & Hs & Hsp).
  destruct Hw as [Hw|Hw]; [by apply (Hw s Hs)|].
  apply (Hw s Hs), isdigit_digits_only.
  apply same_pair_fields in Hsp as [En _].
  by rewrite (StrFacts.isdigit_same_lower _ _ En).
Qed.

Lemma add_service_numeric_witness :
  add_service {| name := u "١٢٣"; category := u "Compute" |} startup
  = (Raise (HTTP (bad_request msg_numeric)), startup).
Proof.
  apply (add_service_numeric {| name := u "١٢٣"; category := u "Compute" |} startup).
  - apply isdigit_digits_only. vm_compute. reflexivity.
  - left. apply Forall_forall. apply (bool_decide_unpack _). vm_compute. exact I.
Defined.

(** C10: whatever the registry holds, when the pair is non-empty, already
    there up to case, and the name is digits-only, the answer is the 409
    error of the duplicate test and not a 400 error: the duplicate test
    comes first. *)
Theorem conflict_precedes_numeric_check (p : ServiceCreate) (s : Service) (w : World) :
  name p ≠ [] → category p ≠ [] →
  s ∈ services w → same_pair s p →
  digits_only (name p) →
  add_service p w = (Raise (HTTP (conflict msg_exists)), w)
  ∧ ∀ d, add_service p w ≠ (Raise (HTTP (bad_request d)), w).
Proof.
  intros Hn%StrFacts.truthy_true Hc%StrFacts.truthy_true Hs Hsp _.
  rewrite (add_service_duplicate p s w) by done.
  split; [done|]. intros d. discriminate.
Qed.

Lemma conflict_precedes_numeric_check_witness :
  let w := {| services := [ {| name := u "2024"; category := u "École" |} ]; logged := [] |} in
  add_service {| name := u "2024"; category := u "école" |} w
    = (Raise (HTTP (conflict msg_exists)), w)
  ∧ ∀ d, add_service {| name := u "2024"; category := u "école" |} w
         ≠ (Raise (HTTP (bad_request d)), w).
Proof.
  apply (conflict_precedes_numeric_check
           {| name := u "2024"; category := u "école" |}
           {| name := u "2024"; category := u "École" |}).
  - discriminate.
  - discriminate.
  - apply (bool_decide_unpack _). vm_compute. exact I.
  - vm_compute. reflexivity.
  - apply isdigit_digits_only. vm_compute. reflexivity.
Defined.

(** * Invariants of the running process *)

(** C3: after any sequence of requests served from start-up, the keys of
    the records are pairwise distinct: two positions that hold the same
    pair up to case are one position. *)
Theorem registry_pairs_unique (reqs : list Request) :
  NoDup (pair_key <$> services (run reqs startup))
  ∧ ∀ i j s t,
      services (run reqs startup) !! i = Some s →
      services (run reqs startup) !! j = Some t →
      same_pair s t → i = j.
Proof.
  pose proof (unique_pairs_run reqs) as Hnd. split; [done|].
  intros i j s t Hi Hj Hst.
  apply (NoDup_lookup _ i j (pair_key s) Hnd).
  - by rewrite list_lookup_fmap, Hi.
  - by rewrite list_lookup_fmap, Hj, Hst.
Qed.

(** C9: after any sequence of requests served from start-up, no record
    has a digits-only name; every name has a character that is not a
    digit. *)
Theorem registry_names_not_numeric (reqs : list Request) :
  Forall (λ s, ¬ digits_only (name s) ∧
               ∃ c, c ∈ name s ∧ Str.is_digit c = false)
         (services (run reqs startup)).
Proof.
  eapply Forall_impl; [apply record_ok_run|].
  intros s (Hn & _ & Hd). split.
  - by apply isdigit_not_digits_only.
  - by apply StrFacts.not_isdigit_chars.
Qed.

(** * Removing *)

Section Removing.

Variable hit : Service → bool.
Variable P : Service → Prop.
Hypothesis hit_spec : ∀ s, hit s = true ↔ P s.
Variable msg : string.

Lemma Forall_hit_false (l : list Service) :
  Forall (λ s, hit s = false) l ↔ ∀ s, s ∈ l → ¬ P s.
Proof.
  rewrite Forall_forall. split; intros H s Hs.
  - rewrite <- hit_spec, (H s Hs). done.
  - apply not_true_is_false. rewrite hit_spec. by apply H.
Qed.

(** The behaviour both DELETE handlers share, for the test [P]. *)
Lemma remove_first_spec (w : World) :
  ((∃ e, (delete_first hit msg w).1 = Raise e) ↔ ∀ s, s ∈ services w → ¬ P s)
  ∧ ((∀ s, s ∈ services w → ¬ P s) →
     delete_first hit msg w = (Raise (HTTP (not_found msg)), w))
  ∧ ((∃ s, s ∈ services w ∧ P s) →
     ∃ l1 s l2,
       services w = l1 ++ s :: l2 ∧ (∀ x, x ∈ l1 → ¬ P x) ∧ P s ∧
       delete_first hit msg w = (Return (l1 ++ l2),
                   {| services := l1 ++ l2;
                      logged := logged w ++ [(length l1, s)] |})).
Proof.
  destruct (delete_first_hit hit msg w)
    as [[Hno Hres]|(l1 & s & l2 & E & Hl1 & Hs & Hres)].
  - rewrite Forall_hit_false in Hno. repeat split.
    + done.
    + intros _. rewrite Hres. by eexists.
    + done.
    + intros (s & Hs & HP). by destruct (Hno s Hs).
  - rewrite Forall_hit_false in Hl1. apply hit_spec in Hs.
    assert (Hin : s ∈ services w) by (rewrite E; apply elem_of_app; right; left).
    repeat split.
    + rewrite Hres. by intros [e ?].
    + intros Hno. by destruct (Hno s Hin).
    + intros Hno. by destruct (Hno s Hin).
    + intros _. by exists l1, s, l2.
Qed.

End Removing.

(** C6: DELETE by name raises exactly when no record's name equals the
    given one up to case, and then it is the 404 error, with nothing
    changed; otherwise the registry splits at the first record with that
    name, that record alone is removed, the others keep their places, and
    the answer is the updated registry. *)
Theorem delete_service_spec (qname : Str.str) (w : World) :
  ((∃ e, (delete_service qname w).1 = Raise e) ↔
   ∀ s, s ∈ services w → ¬ name_is qname s)
  ∧ ((∀ s, s ∈ services w → ¬ name_is qname s) →
     delete_service qname w = (Raise (HTTP (not_found msg_not_found)), w))
  ∧ ((∃ s, s ∈ services w ∧ name_is qname s) →
     ∃ l1 s l2,
       services w = l1 ++ s :: l2 ∧
       (∀ x, x ∈ l1 → ¬ name_is qname x) ∧ name_is qname s ∧
       delete_service qname w
         = (Return (l1 ++ l2),
            {| services := l1 ++ l2;
               logged := logged w ++ [(length l1, s)] |})).
Proof.
  apply (remove_first_spec _ (name_is qname)); intros s.
  apply bool_decide_eq_true.
Qed.

(** C7: DELETE by name and category raises exactly when no record equals
    the given pair up to case on both fields, and then it is the 404
    error, with nothing changed; otherwise the first record matching both
    fields is the one removed, the others keep their places, and the
    answer is the updated registry. *)
Theorem delete_service_exact_spec (qname qcategory : Str.str) (w : World) :
  ((∃ e, (delete_service_exact qname qcategory w).1 = Raise e) ↔
   ∀ s, s ∈ services w → ¬ (name_is qname s ∧ category_is qcategory s))
  ∧ ((∀ s, s ∈ services w → ¬ (name_is qname s ∧ category_is qcategory s)) →
     delete_service_exact qname qcategory w
       = (Raise (HTTP (not_found msg_not_found_exact)), w))
  ∧ ((∃ s, s ∈ services w ∧ name_is qname s ∧ category_is qcategory s) →
     ∃ l1 s l2,
       services w = l1 ++ s :: l2 ∧
       (∀ x, x ∈ l1 → ¬ (name_is qname x ∧ category_is qcategory x)) ∧
       (name_is qname s ∧ category_is qcategory s) ∧
       delete_service_exact qname qcategory w
         = (Return (l1 ++ l2),
            {| services := l1 ++ l2;
               logged := logged w ++ [(length l1, s)] |})).
Proof.
  apply (remove_first_spec _ (λ s, name_is qname s ∧ category_is qcategory s)).
  intros s. by rewrite andb_true_iff, !bool_decide_eq_true.
Qed.

Lemma delete_service_spec_witness :
  ∃ l1 s l2,
    services startup_ecole = l1 ++ s :: l2 ∧
    (∀ x, x ∈ l1 → ¬ name_is (u "ÉCOLE") x) ∧ name_is (u "ÉCOLE") s ∧
    delete_service (u "ÉCOLE") startup_ecole
      = (Return (l1 ++ l2),
         {| services := l1 ++ l2;
            logged := logged startup_ecole ++ [(length l1, s)] |}).
Proof.
  apply (delete_service_spec (u "ÉCOLE") startup_ecole).
  exists ecole. split.
  - apply (bool_decide_unpack _). vm_compute. exact I.
  - vm_compute. reflexivity.
Defined.

Lemma delete_service_exact_spec_witness :
  ∃ l1 s l2,
    services startup_ecole = l1 ++ s :: l2 ∧
    (∀ x, x ∈ l1 → ¬ (name_is (u "école") x ∧ category_is (u "éDITION") x)) ∧
    (name_is (u "école") s ∧ category_is (u "éDITION") s) ∧
    delete_service_exact (u "école") (u "éDITION") startup_ecole
      = (Return (l1 ++ l2),
         {| services := l1 ++ l2;
            logged := logged startup_ecole ++ [(length l1, s)] |}).
Proof.
  apply (delete_service_exact_spec (u "école") (u "éDITION") startup_ecole).
  exists ecole. split; [|split].
  - apply (bool_decide_unpack _). vm_compute. exact I.
  - vm_compute. reflexivity.
  - vm_compute. reflexivity.
Defined.

(** Letters outside ASCII through the handlers: the duplicate and the
    digits tests see them, and so do the lookups. *)
Example handlers_beyond_ascii :
  (add_service {| name := u "école"; category := u "édition" |} startup_ecole).1
    = Raise (HTTP (conflict msg_exists))
  ∧ (add_service {| name := u "١٢٣"; category := u "Compute" |} startup).1
    = Raise (HTTP (bad_request msg_numeric))
  ∧ (delete_service (u "école") startup_ecole).1 = Return aws_services
  ∧ length (services (run [ POST_services ecole;
                            POST_services {| name := u "ÉCOLE"; category := u "édition" |};
                            POST_services {| name := u "٤٢"; category := u "Misc" |} ]
                          startup)) = 6.
Proof. repeat split; by vm_compute. Qed.

(** * Failures *)

(** A handler raises one of the three HTTP errors, never [IndexError]:
    the position found by the loop is inside the list. *)
Lemma handle_raises_http (r : Request) (w : World) (e : Exception) :
  (handle r w).1 = Raise e →
  ∃ d, e = HTTP (bad_request d) ∨ e = HTTP (conflict d) ∨ e = HTTP (not_found d).
Proof.
  destruct r as [qn qc|p|qn|qn qc]; cbn [handle].
  - by rewrite get_services_eq.
  - rewrite add_service_eq.
    repeat match goal with |- context [if ?b then _ else _] => destruct b end;
      simpl; intros [= <-]; eauto.
  - unfold delete_service.
    destruct (delete_first_hit (λ s, bool_decide (name_is qn s)) msg_not_found w)
      as [[_ ->]|(l1 & s & l2 & _ & _ & _ & ->)]; simpl; [|done].
    intros [= <-]; eauto.
  - unfold delete_service_exact.
    destruct (delete_first_hit
                (λ s, bool_decide (name_is qn s) && bool_decide (category_is qc s))
                msg_not_found_exact w)
      as [[_ ->]|(l1 & s & l2 & _ & _ & _ & ->)]; simpl; [|done].
    intros [= <-]; eauto.
Qed.

(** C8: a request that raises leaves the registry, and the log with it,
    exactly as they were before the call. *)
Theorem failure_leaves_world (r : Request) (w : World) (e : Exception) :
  (handle r w).1 = Raise e → (handle r w).2 = w.
Proof.
  destruct r as [qn qc|p|qn|qn qc]; cbn [handle].
  - by rewrite get_services_eq.
  - rewrite add_service_eq.
    by repeat match goal with |- context [if ?b then _ else _] => destruct b end.
  - unfold delete_service.
    by destruct (delete_first_hit (λ s, bool_decide (name_is qn s)) msg_not_found w)
      as [[_ ->]|(l1 & s & l2 & _ & _ & _ & ->)].
  - unfold delete_service_exact.
    by destruct (delete_first_hit
                   (λ s, bool_decide (name_is qn s) && bool_decide (category_is qc s))
                   msg_not_found_exact w)
      as [[_ ->]|(l1 & s & l2 & _ & _ & _ & ->)].
Qed.

Lemma failure_leaves_world_witness :
  (handle (DELETE_service (u "Glacier")) startup).2 = startup.
Proof.
  apply (failure_leaves_world (DELETE_service (u "Glacier")) startup
           (HTTP (not_found msg_not_found))).
  reflexivity.
Defined.

(** * The scenario of the specification, replayed *)

Example scenario :
  let redshift := {| name := u "Redshift"; category := u "Database" |} in
  (handle (GET_services None (Some (u "compute"))) startup).1
    = Return [ {| name := u "Lambda"; category := u "Compute" |};
               {| name := u "EC2"; category := u "Compute" |} ]
  ∧ (handle (POST_services {| name := u "redshift"; category := u "database" |})
       (run [POST_services redshift] startup)).1
    = Raise (HTTP (conflict msg_exists))
  ∧ name <$> services (run [ POST_services redshift;
                             POST_services {| name := u "redshift"; category := u "database" |};
                             DELETE_service (u "ec2") ] startup)
    = [u "S3"; u "Lambda"; u "RDS"; u "DynamoDB"; u "Redshift"].
Proof. repeat split. Qed.

(** * Further properties of the handlers *)

(** ** Status codes *)

(** X1: the status a request can fail with is fixed by its method: GET
    never raises, POST raises 400 or 409 only, both DELETEs raise 404
    only; no handler lets an [IndexError] escape. *)
Theorem handle_status_codes (r : Request) (w : World) (e : Exception) :
  (handle r w).1 = Raise e →
  ∃ h, e = HTTP h ∧
       match r with
       | GET_services _ _ => False
       | POST_services _ => status_code h = 400%Z ∨ status_code h = 409%Z
       | DELETE_service _ | DELETE_service_exact _ _ => status_code h = 404%Z
       end.
Proof.
  destruct r as [qn qc|p|qn|qn qc]; cbn [handle].
  - by rewrite get_services_eq.
  - rewrite add_service_eq.
    repeat match goal with |- context [if ?b then _ else _] => destruct b end;
      simpl; intros [= <-]; eexists; split; try reflexivity; simpl; auto.
  - unfold delete_service.
    destruct (delete_first_hit (λ s, bool_decide (name_is qn s)) msg_not_found w)
      as [[_ ->]|(l1 & s & l2 & _ & _ & _ & ->)]; simpl; [|done].
    intros [= <-]. by eexists.
  - unfold delete_service_exact.
    destruct (delete_first_hit
                (λ s, bool_decide (name_is qn s) && bool_decide (category_is qc s))
                msg_not_found_exact w)
      as [[_ ->]|(l1 & s & l2 & _ & _ & _ & ->)]; simpl; [|done].
    intros [= <-]. by eexists.
Qed.

Lemma handle_status_codes_witness :
  ∃ h, HTTP (bad_request msg_missing) = HTTP h ∧
       (status_code h = 400%Z ∨ status_code h = 409%Z).
Proof.
  apply (handle_status_codes
           (POST_services {| name := u "Glue"; category := [] |}) startup
           (HTTP (bad_request msg_missing))).
  reflexivity.
Defined.

(** ** Adding, then something else *)

(** What a successful POST tells about its input and leaves behind. *)
Lemma add_service_Return p w l w' :
  add_service p w = (Return l, w') →
  Str.truthy (name p) = true ∧ Str.truthy (category p) = true ∧
  (∀ s, s ∈ services w → ¬ same_pair s p) ∧
  Str.isdigit (name p) = false ∧
  l = services w ++ [p] ∧
  w' = {| services := services w ++ [p]; logged := logged w |}.
Proof.
  rewrite add_service_eq.
  destruct (Str.truthy (name p)); simpl; [|done].
  destruct (Str.truthy (category p)); simpl; [|done].
  case_bool_decide as Hk; [done|].
  destruct (Str.isdigit (name p)); [done|].
  intros [= <- <-]. repeat split; try done.
  intros s Hs Hsp. apply Hk, pair_key_elem. by exists s.
Qed.

(** The loop passes over a run of misses and stops at the hit behind it. *)
Lemma find_match_idx_app hit i l1 s l2 :
  Forall (λ x, hit x = false) l1 → hit s = true →
  find_match_idx hit i (l1 ++ s :: l2) = Some (i + length l1).
Proof.
  intros HF Hs. revert i.
  induction HF as [|x l1 Hx _ IH]; intros i; simpl.
  - rewrite Hs. f_equal. lia.
  - rewrite Hx, IH. f_equal. lia.
Qed.

Lemma delete_first_split hit msg w l1 s l2 :
  services w = l1 ++ s :: l2 →
  Forall (λ x, hit x = false) l1 → hit s = true →
  delete_first hit msg w
    = (Return (l1 ++ l2),
       {| services := l1 ++ l2; logged := logged w ++ [(length l1, s)] |}).
Proof.
  intros E HF Hs. unfold delete_first, mbind, M_bind, read_services.
  cbn beta iota. rewrite E, find_match_idx_app by done.
  rewrite Nat.add_0_l. by apply delete_at_Some.
Qed.

(** What a successful DELETE tells about the registry it ran on. *)
Lemma delete_first_Return hit msg w l w' :
  delete_first hit msg w = (Return l, w') →
  ∃ l1 s l2,
    services w = l1 ++ s :: l2 ∧ Forall (λ x, hit x = false) l1 ∧
    hit s = true ∧ l = l1 ++ l2 ∧
    w' = {| services := l1 ++ l2; logged := logged w ++ [(length l1, s)] |}.
Proof.
  destruct (delete_first_hit hit msg w)
    as [[_ ->]|(l1 & s & l2 & E & HF & Hs & ->)]; [done|].
  intros [= <- <-]. by exists l1, s, l2.
Qed.

(** X2: adding a record and then deleting it by name and category gives
    back the registry as it was before the two calls; the one log entry
    names the record and the position it was appended at. *)
Theorem add_then_delete_exact (p : ServiceCreate) (w : World)
    (l : list Service) (w' : World) :
  add_service p w = (Return l, w') →
  delete_service_exact (name p) (category p) w'
    = (Return (services w),
       {| services := services w;
          logged := logged w ++ [(length (services w), p)] |}).
Proof.
  intros (_ & _ & Hnew & _ & _ & ->)%add_service_Return.
  unfold delete_service_exact.
  rewrite (delete_first_split _ _ _ (services w) p []); simpl.
  - by rewrite app_nil_r.
  - done.
  - apply Forall_forall. intros s Hs.
    apply not_true_is_false.
    rewrite andb_true_iff, !bool_decide_eq_true.
    intros [Hn Hc]. apply (Hnew s Hs), same_pair_fields. done.
  - rewrite andb_true_iff, !bool_decide_eq_true. done.
Qed.

Lemma add_then_delete_exact_witness :
  delete_service_exact (u "Redshift") (u "Database")
    {| services := aws_services ++ [ {| name := u "Redshift"; category := u "Database" |} ];
       logged := [] |}
  = (Return aws_services,
     {| services := aws_services;
        logged := [(5, {| name := u "Redshift"; category := u "Database" |})] |}).
Proof.
  apply (add_then_delete_exact {| name := u "Redshift"; category := u "Database" |}
           startup
           (aws_services ++ [ {| name := u "Redshift"; category := u "Database" |} ])).
  reflexivity.
Defined.

(** X3: once a record is added, adding any record with the same pair up
    to case raises the 409 error and changes nothing, whatever the
    registry was before. *)
Theorem add_twice_conflict (p p' : ServiceCreate) (w : World)
    (l : list Service) (w' : World) :
  add_service p w = (Return l, w') → same_pair p p' →
  add_service p' w' = (Raise (HTTP (conflict msg_exists)), w').
Proof.
  intros (Hn & Hc & _ & _ & _ & ->)%add_service_Return Hsp.
  pose proof Hsp as [En Ec]%same_pair_fields.
  apply add_service_duplicate with p; [| |simpl|done].
  - by rewrite <- (StrFacts.truthy_same_lower _ _ En).
  - by rewrite <- (StrFacts.truthy_same_lower _ _ Ec).
  - apply elem_of_app. right. by left.
Qed.

Lemma add_twice_conflict_witness :
  add_service {| name := u "ÉCOLE"; category := u "édition" |} startup_ecole
  = (Raise (HTTP (conflict msg_exists)), startup_ecole).
Proof.
  apply (add_twice_conflict ecole
           {| name := u "ÉCOLE"; category := u "édition" |} startup
           (aws_services ++ [ecole])).
  - vm_compute. reflexivity.
  - vm_compute. reflexivity.
Defined.

Lemma snoc_split {A} (l1 l2 l : list A) (s p : A) :
  l1 ++ s :: l2 = l ++ [p] →
  (l2 = [] ∧ l1 = l ∧ s = p) ∨ (∃ k, l2 = k ++ [p] ∧ l = l1 ++ s :: k).
Proof.
  destruct l2 as [|x k _] using rev_ind; intros E.
  - left. apply app_inj_tail in E as [-> ->]. done.
  - right. exists k.
    change (l1 ++ s :: k ++ [x]) with (l1 ++ (s :: k) ++ [x]) in E.
    rewrite app_assoc in E. apply app_inj_tail in E as [E ->].
    split; [done | by rewrite <- E].
Qed.

(** X4: DELETE by name right after a successful POST always succeeds, but
    it removes the first record of that name: when an older record has the
    name of the new one up to case, the older record goes and the new one
    stays last; only when there is none is the POST undone. *)
Theorem add_then_delete_by_name (p : ServiceCreate) (w : World)
    (l : list Service) (w' : World) :
  add_service p w = (Return l, w') →
  ∃ l' w'',
    delete_service (name p) w' = (Return l', w'') ∧ services w'' = l' ∧
    ((∃ t, t ∈ services w ∧ name_is (name p) t) →
     last l' = Some p ∧ ∃ l1 s l2,
       services w = l1 ++ s :: l2 ∧ name_is (name p) s ∧
       (∀ x, x ∈ l1 → ¬ name_is (name p) x) ∧ l' = l1 ++ l2 ++ [p]) ∧
    ((∀ t, t ∈ services w → ¬ name_is (name p) t) → l' = services w).
Proof.
  intros (_ & _ & _ & _ & _ & ->)%add_service_Return.
  destruct (remove_first_spec (λ s, bool_decide (name_is (name p) s))
              (name_is (name p)) (λ s, bool_decide_eq_true _) msg_not_found
              {| services := services w ++ [p]; logged := logged w |})
    as (_ & _ & Hhit).
  destruct Hhit as (l1 & s & l2 & E & Hl1 & Hs & Hres).
  { exists p. split; [simpl; apply elem_of_app; right; by left | done]. }
  simpl in E. fold (delete_service (name p)) in Hres.
  eexists _, _. split; [exact Hres|]. split; [done|].
  symmetry in E. apply snoc_split in E as [(-> & -> & ->)|(k & -> & E)].
  - split.
    + intros (t & Ht & Hn). by destruct (Hl1 t Ht).
    + intros _. by rewrite app_nil_r.
  - split.
    + intros _. split; [by rewrite !app_assoc, last_snoc|].
      by exists l1, s, k.
    + intros Hno. destruct (Hno s); [|done].
      rewrite E. apply elem_of_app. right. by left.
Qed.

Lemma add_then_delete_by_name_witness :
  ∃ l' w'',
    delete_service (u "s3")
      {| services := aws_services ++ [ {| name := u "s3"; category := u "Archive" |} ];
         logged := [] |} = (Return l', w'') ∧ services w'' = l' ∧
    ((∃ t, t ∈ aws_services ∧ name_is (u "s3") t) →
     last l' = Some {| name := u "s3"; category := u "Archive" |} ∧ ∃ l1 s l2,
       aws_services = l1 ++ s :: l2 ∧ name_is (u "s3") s ∧
       (∀ x, x ∈ l1 → ¬ name_is (u "s3") x) ∧
       l' = l1 ++ l2 ++ [ {| name := u "s3"; category := u "Archive" |} ]) ∧
    ((∀ t, t ∈ aws_services → ¬ name_is (u "s3") t) → l' = aws_services).
Proof.
  apply (add_then_delete_by_name {| name := u "s3"; category := u "Archive" |} startup
           (aws_services ++ [ {| name := u "s3"; category := u "Archive" |} ])).
  reflexivity.
Defined.

(** ** Removing *)

(** X5: a successful DELETE by name takes away exactly one of the records
    with that name and none of the others: the records with another name
    are the same, in the same order, and the registry is one shorter. *)
Theorem delete_service_removes_one (qname : Str.str) (w : World)
    (l : list Service) (w' : World) :
  delete_service qname w = (Return l, w') →
  services w' = l ∧
  length (services w) = S (length l) ∧
  length (filter (name_is qname) (services w))
    = S (length (filter (name_is qname) l)) ∧
  filter (λ s, ¬ name_is qname s) l
    = filter (λ s, ¬ name_is qname s) (services w).
Proof.
  intros (l1 & s & l2 & -> & _ & Hs%bool_decide_eq_true & -> & ->)%delete_first_Return.
  repeat split.
  - rewrite !length_app. simpl. lia.
  - rewrite !filter_app, filter_cons_True, !length_app by done. simpl. lia.
  - rewrite !filter_app, filter_cons_False; [done|]. by intros H; apply H.
Qed.

Lemma delete_service_removes_one_witness :
  let l := [ {| name := u "S3"; category := u "Storage" |};
             {| name := u "EC2"; category := u "Compute" |};
             {| name := u "RDS"; category := u "Database" |};
             {| name := u "DynamoDB"; category := u "Database" |} ] in
  let w' := {| services := l;
               logged := [(1, {| name := u "Lambda"; category := u "Compute" |})] |} in
  services w' = l ∧
  length (services startup) = S (length l) ∧
  length (filter (name_is (u "LAMBDA")) (services startup))
    = S (length (filter (name_is (u "LAMBDA")) l)) ∧
  filter (λ s, ¬ name_is (u "LAMBDA") s) l
    = filter (λ s, ¬ name_is (u "LAMBDA") s) (services startup).
Proof.
  apply (delete_service_removes_one (u "LAMBDA") startup).
  reflexivity.
Defined.

(** With pairwise distinct keys, the record at a position is the only one
    with its pair. *)
Lemma unique_pairs_split l1 s l2 :
  unique_pairs (l1 ++ s :: l2) → ∀ x, x ∈ l1 ++ l2 → ¬ same_pair x s.
Proof.
  unfold unique_pairs, same_pair. rewrite fmap_app, fmap_cons.
  intros (_ & Hl1 & [Hl2 _]%NoDup_cons)%NoDup_app x [Hx|Hx]%elem_of_app E.
  - apply (Hl1 (pair_key x)); [by apply list_elem_of_fmap_2|].
    rewrite E. by left.
  - apply Hl2. rewrite <- E. by apply list_elem_of_fmap_2.
Qed.

Lemma exact_hit_same_pair qn qc s x :
  name_is qn s → category_is qc s → name_is qn x → category_is qc x →
  same_pair x s.
Proof.
  unfold name_is, category_is. intros Hn Hc Hn' Hc'.
  apply same_pair_fields. by rewrite Hn, Hc, Hn', Hc'.
Qed.

(** X6: in every state the process can reach, a successful DELETE by name
    and category leaves no record with that pair: the same DELETE again
    raises the 404 error and changes nothing. *)
Theorem delete_exact_twice (reqs : list Request) (qname qcategory : Str.str)
    (l : list Service) (w' : World) :
  delete_service_exact qname qcategory (run reqs startup) = (Return l, w') →
  (∀ s, s ∈ l → ¬ (name_is qname s ∧ category_is qcategory s))
  ∧ delete_service_exact qname qcategory w'
    = (Raise (HTTP (not_found msg_not_found_exact)), w').
Proof.
  intros (l1 & s & l2 & E & _ & Hs & -> & ->)%delete_first_Return.
  apply andb_true_iff in Hs as [Hn%bool_decide_eq_true Hc%bool_decide_eq_true].
  pose proof (unique_pairs_run reqs) as Hu. rewrite E in Hu.
  assert (Hno : ∀ x, x ∈ l1 ++ l2 → ¬ (name_is qname x ∧ category_is qcategory x)).
  { intros x Hx [Hn' Hc']. apply (unique_pairs_split _ _ _ Hu x Hx).
    by apply (exact_hit_same_pair qname qcategory). }
  split; [done|].
  apply (remove_first_spec _ (λ x, name_is qname x ∧ category_is qcategory x)).
  - intros x. by rewrite andb_true_iff, !bool_decide_eq_true.
  - done.
Qed.

Lemma delete_exact_twice_witness :
  let l := [ {| name := u "S3"; category := u "Storage" |};
             {| name := u "Lambda"; category := u "Compute" |};
             {| name := u "EC2"; category := u "Compute" |};
             {| name := u "DynamoDB"; category := u "Database" |} ] in
  let w' := {| services := l;
               logged := [(3, {| name := u "RDS"; category := u "Database" |})] |} in
  (∀ s, s ∈ l → ¬ (name_is (u "rds") s ∧ category_is (u "DATABASE") s))
  ∧ delete_service_exact (u "rds") (u "DATABASE") w'
    = (Raise (HTTP (not_found msg_not_found_exact)), w').
Proof.
  apply (delete_exact_twice [] (u "rds") (u "DATABASE")).
  reflexivity.
Defined.

(** X7: in every state the process can reach, the record removed by a
    successful DELETE by name and category can be added back at once; it
    then stands last, and the registry holds the same records as before
    the DELETE. *)
Theorem delete_exact_then_add_back (reqs : list Request)
    (qname qcategory : Str.str) (l : list Service) (w' : World) :
  delete_service_exact qname qcategory (run reqs startup) = (Return l, w') →
  ∃ s, s ∈ services (run reqs startup) ∧
       name_is qname s ∧ category_is qcategory s ∧
       add_service s w'
         = (Return (l ++ [s]),
            {| services := l ++ [s]; logged := logged w' |}) ∧
       l ++ [s] ≡ₚ services (run reqs startup).
Proof.
  intros (l1 & s & l2 & E & _ & Hs & -> & ->)%delete_first_Return.
  apply andb_true_iff in Hs as [Hn%bool_decide_eq_true Hc%bool_decide_eq_true].
  pose proof (unique_pairs_run reqs) as Hu. rewrite E in Hu.
  pose proof (record_ok_run reqs) as Hok. rewrite E in Hok.
  apply Forall_app in Hok as [_ [(Htn & Htc & Hd) _]%Forall_cons].
  exists s. rewrite E. repeat split; try done.
  - apply elem_of_app. right. by left.
  - rewrite add_service_eq, Htn, Htc, Hd. simpl.
    rewrite bool_decide_eq_false_2; [done|].
    rewrite pair_key_elem. intros (x & Hx & Hsp).
    by apply (unique_pairs_split _ _ _ Hu x Hx).
  - rewrite <- app_assoc. apply Permutation_app_head.
    symmetry. apply Permutation_cons_append.
Qed.

Lemma delete_exact_then_add_back_witness :
  let l := [ {| name := u "Lambda"; category := u "Compute" |};
             {| name := u "EC2"; category := u "Compute" |};
             {| name := u "RDS"; category := u "Database" |};
             {| name := u "DynamoDB"; category := u "Database" |} ] in
  let w' := {| services := l;
               logged := [(0, {| name := u "S3"; category := u "Storage" |})] |} in
  ∃ s, s ∈ services (run [] startup) ∧
       name_is (u "s3") s ∧ category_is (u "storage") s ∧
       add_service s w'
         = (Return (l ++ [s]),
            {| services := l ++ [s]; logged := logged w' |}) ∧
       l ++ [s] ≡ₚ services (run [] startup).
Proof.
  apply (delete_exact_then_add_back [] (u "s3") (u "storage")).
  reflexivity.
Defined.

(** X8: when DELETE by name finds nobody, DELETE by that name and any
    category finds nobody either: it raises its 404 error and changes
    nothing. *)
Theorem not_found_by_name_not_found_exact (qname : Str.str) (w : World)
    (e : Exception) :
  (delete_service qname w).1 = Raise e →
  ∀ qcategory,
    delete_service_exact qname qcategory w
      = (Raise (HTTP (not_found msg_not_found_exact)), w).
Proof.
  intros Hraise qcategory.
  destruct (remove_first_spec (λ s, bool_decide (name_is qname s))
              (name_is qname) (λ s, bool_decide_eq_true _) msg_not_found w)
    as (Hiff & _ & _).
  fold (delete_service qname) in Hiff.
  assert (Hno : ∀ s, s ∈ services w → ¬ name_is qname s)
    by (apply Hiff; by exists e).
  apply (remove_first_spec _ (λ x, name_is qname x ∧ category_is qcategory x)).
  - intros x. by rewrite andb_true_iff, !bool_decide_eq_true.
  - intros s Hs [Hn _]. by apply (Hno s Hs).
Qed.

Lemma not_found_by_name_not_found_exact_witness :
  delete_service_exact (u "Glacier") (u "Storage") startup
    = (Raise (HTTP (not_found msg_not_found_exact)), startup).
Proof.
  apply (not_found_by_name_not_found_exact (u "Glacier") startup
           (HTTP (not_found msg_not_found))).
  reflexivity.
Defined.

(** ** Letter case of the inputs *)

Lemma find_match_idx_ext hit hit' i l :
  (∀ s, hit s = hit' s) → find_match_idx hit i l = find_match_idx hit' i l.
Proof.
  intros H. revert i. induction l as [|s l IH]; intros i; simpl; [done|].
  by rewrite H, IH.
Qed.

Lemma delete_first_ext hit hit' msg w :
  (∀ s, hit s = hit' s) → delete_first hit msg w = delete_first hit' msg w.
Proof.
  intros H. unfold delete_first, mbind, M_bind, read_services. cbn beta iota.
  by rewrite (find_match_idx_ext hit hit' 0 _ H).
Qed.

(** X9: the three lookups do not see the letter case of what is asked
    for: two names, or two categories, equal up to case give the same
    answer and the same world, for GET with both filters and for both
    DELETEs. *)
Theorem lookups_ignore_case (qname qname' qcategory qcategory' : Str.str)
    (w : World) :
  Str.lower qname = Str.lower qname' →
  Str.lower qcategory = Str.lower qcategory' →
  get_services (Some qname) (Some qcategory) w
    = get_services (Some qname') (Some qcategory') w
  ∧ delete_service qname w = delete_service qname' w
  ∧ delete_service_exact qname qcategory w
    = delete_service_exact qname' qcategory' w.
Proof.
  intros En Ec.
  assert (Hn : ∀ s, name_is qname s ↔ name_is qname' s)
    by (intros s; unfold name_is; by rewrite En).
  assert (Hc : ∀ s, category_is qcategory s ↔ category_is qcategory' s)
    by (intros s; unfold category_is; by rewrite Ec).
  repeat split.
  - rewrite !get_services_eq. simpl.
    rewrite (StrFacts.truthy_same_lower _ _ En), (StrFacts.truthy_same_lower _ _ Ec).
    do 2 f_equal.
    destruct (Str.truthy qname'), (Str.truthy qcategory');
      rewrite ?(list_filter_iff _ _ _ Hn); try done;
      by apply list_filter_iff.
  - apply delete_first_ext. intros s. by apply bool_decide_ext.
  - apply delete_first_ext. intros s.
    by rewrite (bool_decide_ext _ _ (Hn s)), (bool_decide_ext _ _ (Hc s)).
Qed.

Lemma lookups_ignore_case_witness :
  get_services (Some (u "école")) (Some (u "ÉDITION")) startup_ecole
    = get_services (Some (u "ÉCOLE")) (Some (u "édition")) startup_ecole
  ∧ delete_service (u "école") startup_ecole
    = delete_service (u "ÉCOLE") startup_ecole
  ∧ delete_service_exact (u "école") (u "ÉDITION") startup_ecole
    = delete_service_exact (u "ÉCOLE") (u "édition") startup_ecole.
Proof.
  apply (lookups_ignore_case (u "école") (u "ÉCOLE") (u "ÉDITION") (u "édition")
           startup_ecole).
  - vm_compute. reflexivity.
  - vm_compute. reflexivity.
Defined.

(** ** Runs of one kind of request *)

Lemma handle_not_POST r w :
  is_POST r = false →
  (handle r w).2 = w
  ∨ ∃ l1 s l2, services w = l1 ++ s :: l2 ∧
      (handle r w).2
        = {| services := l1 ++ l2; logged := logged w ++ [(length l1, s)] |}.
Proof.
  destruct r as [qn qc|p|qn|qn qc]; cbn [handle is_POST]; [|done|..]; intros _.
  - left. by rewrite get_services_eq.
  - unfold delete_service.
    destruct (delete_first_hit (λ s, bool_decide (name_is qn s)) msg_not_found w)
      as [[_ ->]|(l1 & s & l2 & E & _ & _ & ->)]; [by left|].
    right. by exists l1, s, l2.
  - unfold delete_service_exact.
    destruct (delete_first_hit
                (λ s, bool_decide (name_is qn s) && bool_decide (category_is qc s))
                msg_not_found_exact w)
      as [[_ ->]|(l1 & s & l2 & E & _ & _ & ->)]; [by left|].
    right. by exists l1, s, l2.
Qed.

Lemma handle_not_DELETE r w :
  is_DELETE r = false →
  (handle r w).2 = w
  ∨ ∃ p, (handle r w).2
         = {| services := services w ++ [p]; logged := logged w |}.
Proof.
  destruct r as [qn qc|p|qn|qn qc]; cbn [handle is_DELETE]; [| |done..]; intros _.
  - left. by rewrite get_services_eq.
  - rewrite add_service_eq.
    repeat match goal with |- context [if ?b then _ else _] => destruct b end;
      simpl; eauto.
Qed.

(** X10: as long as no POST is served nothing enters the registry: after
    the run it is a sublist of what it was, and every record that left has
    its log entry: registry and log together keep their total length. *)
Theorem run_without_POST (reqs : list Request) (w : World) :
  Forall (λ r, is_POST r = false) reqs →
  services (run reqs w) `sublist_of` services w
  ∧ length (services (run reqs w)) + length (logged (run reqs w))
    = length (services w) + length (logged w).
Proof.
  intros HF. revert w. induction HF as [|r reqs Hr _ IH]; intros w; simpl; [done|].
  destruct (IH (handle r w).2) as [Hsub Hlen].
  destruct (handle_not_POST r w Hr) as [E|(l1 & s & l2 & Ew & E)];
    rewrite E in Hsub, Hlen; [by rewrite E|].
  simpl in Hsub, Hlen. rewrite E. split.
  - etrans; [exact Hsub|]. rewrite Ew.
    apply sublist_app; [done|]. by apply sublist_cons.
  - rewrite Hlen, Ew, !length_app. simpl. lia.
Qed.

Lemma run_without_POST_witness :
  let reqs := [ DELETE_service (u "ec2"); GET_services None None;
                DELETE_service (u "ec2"); DELETE_service_exact (u "S3") (u "storage") ] in
  services (run reqs startup) `sublist_of` services startup
  ∧ length (services (run reqs startup)) + length (logged (run reqs startup))
    = length (services startup) + length (logged startup).
Proof.
  apply (run_without_POST
           [ DELETE_service (u "ec2"); GET_services None None;
             DELETE_service (u "ec2"); DELETE_service_exact (u "S3") (u "storage") ] startup).
  repeat constructor.
Defined.

(** X11: as long as no DELETE is served nothing leaves the registry and
    nothing is logged: after the run the old registry is a prefix of the
    new one, and the log is the same. *)
Theorem run_without_DELETE (reqs : list Request) (w : World) :
  Forall (λ r, is_DELETE r = false) reqs →
  services w `prefix_of` services (run reqs w)
  ∧ logged (run reqs w) = logged w.
Proof.
  intros HF. revert w. induction HF as [|r reqs Hr _ IH]; intros w; simpl; [done|].
  destruct (IH (handle r w).2) as [Hpre Hlog].
  destruct (handle_not_DELETE r w Hr) as [E|(p & E)];
    rewrite E in Hpre, Hlog; [by rewrite E|].
  simpl in Hpre, Hlog. rewrite E. split; [|done].
  etrans; [|exact Hpre]. by apply prefix_app_r.
Qed.

Lemma run_without_DELETE_witness :
  let reqs := [ POST_services {| name := u "SQS"; category := u "Messaging" |};
                POST_services {| name := u "sqs"; category := u "messaging" |};
                GET_services (Some (u "sqs")) None ] in
  services startup `prefix_of` services (run reqs startup)
  ∧ logged (run reqs startup) = logged startup.
Proof.
  apply (run_without_DELETE
           [ POST_services {| name := u "SQS"; category := u "Messaging" |};
             POST_services {| name := u "sqs"; category := u "messaging" |};
             GET_services (Some (u "sqs")) None ] startup).
  repeat constructor.
Defined.

(** ** Listing in a running process *)

(** X12: in every state the process can reach, GET with a name and a
    category, both non-empty, answers at most one record. *)
Theorem list_pair_at_most_one (reqs : list Request) (qname qcategory : Str.str) :
  qname ≠ [] → qcategory ≠ [] →
  ∃ l, get_services (Some qname) (Some qcategory) (run reqs startup)
         = (Return l, run reqs startup)
       ∧ length l ≤ 1.
Proof.
  intros Hn%StrFacts.truthy_true Hc%StrFacts.truthy_true.
  rewrite get_services_eq. simpl. rewrite Hn, Hc.
  eexists. split; [reflexivity|].
  set (l := filter _ (filter _ _)).
  assert (Hsub : l `sublist_of` services (run reqs startup))
    by (unfold l; etrans; apply sublist_filter).
  assert (Hhit : ∀ s, s ∈ l → pair_key s = (Str.lower qname, Str.lower qcategory)).
  { intros s [Hsc [Hsn _]%list_elem_of_filter]%list_elem_of_filter.
    unfold pair_key. by rewrite Hsn, Hsc. }
  pose proof (sublist_NoDup _ _ (unique_pairs_run reqs)
                (fmap_sublist pair_key _ _ Hsub)) as Hnd.
  destruct l as [|a [|b l']]; simpl; [lia|lia|].
  exfalso. simpl in Hnd. apply NoDup_cons in Hnd as [Hnot _]. apply Hnot.
  rewrite (Hhit a), <- (Hhit b); [by left | by right; left | by left].
Qed.

Lemma list_pair_at_most_one_witness :
  ∃ l, get_services (Some (u "dynamodb")) (Some (u "database"))
         (run [DELETE_service (u "S3")] startup)
         = (Return l, run [DELETE_service (u "S3")] startup)
       ∧ length l ≤ 1.
Proof.
  apply (list_pair_at_most_one [DELETE_service (u "S3")] (u "dynamodb") (u "database")).
  - discriminate.
  - discriminate.
Defined.

(** X13: after any sequence of requests served from start-up, every record
    has a non-empty name and a non-empty category. *)
Theorem registry_fields_nonempty (reqs : list Request) :
  Forall (λ s, name s ≠ [] ∧ category s ≠ [])
         (services (run reqs startup)).
Proof.
  eapply Forall_impl; [apply record_ok_run|].
  intros s (Hn & Hc & _). by rewrite <- !StrFacts.truthy_true.
Qed.

Lemma filter_head {A} (P : A → Prop) `{!∀ x, Decision (P x)} (l : list A) s rest :
  filter P l = s :: rest →
  ∃ l1 l2, l = l1 ++ s :: l2 ∧ Forall (λ x, ¬ P x) l1 ∧ P s.
Proof.
  induction l as [|x l IH]; [done|].
  rewrite filter_cons. destruct (decide (P x)) as [HP|HP].
  - intros [= -> _]. by exists [], l.
  - intros (l1 & l2 & -> & HF & Hs)%IH.
    exists (x :: l1), l2. repeat split; [by constructor | done].
Qed.

(** X14: listing by a non-empty name and DELETE by that name agree: the
    list is empty exactly when the DELETE raises, and otherwise the first
    record listed is the one the DELETE removes and logs. *)
Theorem list_by_name_tells_delete (qname : Str.str) (w : World) :
  qname ≠ [] →
  ((get_services (Some qname) None w).1 = Return []
   ↔ ∃ e, (delete_service qname w).1 = Raise e)
  ∧ ∀ s rest,
      (get_services (Some qname) None w).1 = Return (s :: rest) →
      ∃ l1 l2,
        services w = l1 ++ s :: l2 ∧
        delete_service qname w
          = (Return (l1 ++ l2),
             {| services := l1 ++ l2;
                logged := logged w ++ [(length l1, s)] |}).
Proof.
  intros Hn%StrFacts.truthy_true.
  rewrite get_services_eq. simpl. rewrite Hn.
  destruct (remove_first_spec (λ s, bool_decide (name_is qname s))
              (name_is qname) (λ s, bool_decide_eq_true _) msg_not_found w)
    as (Hiff & _ & _).
  fold (delete_service qname) in Hiff. split.
  - rewrite Hiff. split.
    + intros [= E] s Hs Hhit.
      assert (Hin : s ∈ filter (name_is qname) (services w))
        by (by apply list_elem_of_filter).
      rewrite E in Hin. by apply elem_of_nil in Hin.
    + intros Hno. f_equal. by apply filter_drops_all.
  - intros s rest [= (l1 & l2 & E & HF & Hs)%filter_head].
    exists l1, l2. split; [done|].
    apply delete_first_split; [done| |by apply bool_decide_eq_true].
    eapply Forall_impl; [exact HF|]. intros x Hx. by apply bool_decide_eq_false.
Qed.

Lemma list_by_name_tells_delete_witness :
  ((get_services (Some (u "rds")) None startup).1 = Return []
   ↔ ∃ e, (delete_service (u "rds") startup).1 = Raise e)
  ∧ ∀ s rest,
      (get_services (Some (u "rds")) None startup).1 = Return (s :: rest) →
      ∃ l1 l2,
        services startup = l1 ++ s :: l2 ∧
        delete_service (u "rds") startup
          = (Return (l1 ++ l2),
             {| services := l1 ++ l2;
                logged := logged startup ++ [(length l1, s)] |}).
Proof.
  apply (list_by_name_tells_delete (u "rds") startup). discriminate.
Defined.

(** ** Adding in a running process *)

(** X15: in every state the process can reach, adding a pair that is
    already there up to case raises the 409 error and changes nothing,
    with no condition on what is submitted. *)
Theorem reachable_existing_pair_conflict (reqs : list Request)
    (p : ServiceCreate) (s : Service) :
  s ∈ services (run reqs startup) → same_pair s p →
  add_service p (run reqs startup)
    = (Raise (HTTP (conflict msg_exists)), run reqs startup).
Proof.
  intros Hs Hsp.
  pose proof (record_ok_run reqs) as Hok.
  rewrite Forall_forall in Hok.
  destruct (record_ok_same_pair s p Hsp (Hok s Hs)) as (Hn & Hc & _).
  by apply add_service_duplicate with s.
Qed.

Lemma reachable_existing_pair_conflict_witness :
  add_service {| name := u "éCOLE"; category := u "ÉDITION" |}
    (run [POST_services ecole] startup)
  = (Raise (HTTP (conflict msg_exists)), run [POST_services ecole] startup).
Proof.
  apply (reachable_existing_pair_conflict [POST_services ecole]
           {| name := u "éCOLE"; category := u "ÉDITION" |} ecole).
  - apply (bool_decide_unpack _). vm_compute. exact I.
  - vm_compute. reflexivity.
Defined.

(** X16: in every state the process can reach, adding a record whose name
    is non-empty and made of digits only raises a 400 error and changes
    nothing: no record there can have the pair, digits having no case. *)
Theorem reachable_numeric_bad_request (reqs : list Request) (p : ServiceCreate) :
  digits_only (name p) →
  add_service p (run reqs startup)
    = (Raise (HTTP (bad_request
                      (if Str.truthy (category p) then msg_numeric else msg_missing))),
       run reqs startup).
Proof.
  intros Hd. pose proof Hd as [Hn%StrFacts.truthy_true _].
  apply isdigit_digits_only in Hd.
  rewrite add_service_eq, Hn, Hd.
  destruct (Str.truthy (category p)); simpl; [|done].
  rewrite bool_decide_eq_false_2; [done|].
  rewrite pair_key_elem. intros (s & Hs & Hsp).
  pose proof (record_ok_run reqs) as Hok.
  rewrite Forall_forall in Hok.
  destruct (record_ok_same_pair s p Hsp (Hok s Hs)) as (_ & _ & Hp).
  congruence.
Qed.

Lemma reachable_numeric_bad_request_witness :
  add_service {| name := u "２０２４"; category := u "Archive" |}
    (run [DELETE_service (u "s3"); POST_services ecole] startup)
  = (Raise (HTTP (bad_request msg_numeric)),
     run [DELETE_service (u "s3"); POST_services ecole] startup).
Proof.
  apply (reachable_numeric_bad_request
           [DELETE_service (u "s3"); POST_services ecole]
           {| name := u "２０２４"; category := u "Archive" |}).
  apply isdigit_digits_only. vm_compute. reflexivity.
Defined.
